(** * ont_data_tools: sequencing summary statistics

    A shallow embedding of the two scripts of the repository,

    - [stats/calculate_summary_stats_v3_under_100kb.py]  (module [V3],
      the length-bucket variant), and
    - [calculate_summary_stats_rna.py]                   (module [Rna],
      the quality-bin variant),

    followed by the properties of the statistics engine that the
    specification states about them.

    Conventions of the embedding.

    - Python [str] is [string]; the text is taken to be ASCII, so that the
      characters of a [string] are the code points of the Python string.
    - Python [int] is [Z] (unbounded on both sides).
    - A text file is the list of its lines; a file system is a partial map
      from file names to files ([None]: the file cannot be opened).
    - Python [float] is kept abstract (class [PyFloat]): the scripts only
      divide an integer by a float and round the quotient to two decimals.
    - An exception that the scripts do not catch is an [outcome] [Raised];
      what they write on the standard error stream is a list of [diag]. *)

From Stdlib Require Import ZArith QArith Qround Ascii String.
From stdpp Require Import gmap strings list sorting.

Local Open Scope Z_scope.
Local Set Warnings "-clear-no-such-hyp".

(** ** Python built-ins used by the scripts *)

Module Py.

(** [str.isspace] on the ASCII range: tab, line feed, vertical tab, form
    feed, carriage return, the four separators 0x1c..0x1f and space. *)
Definition isspace (c : ascii) : bool :=
  match c with
  | "009" | "010" | "011" | "012" | "013"
  | "028" | "029" | "030" | "031" | " " => true
  | _ => false
  end%char.

(** [s.split(sep)] for a one-character separator: every occurrence cuts,
    empty pieces are kept, and the result is never empty. *)
Fixpoint split_on (sep : ascii) (s : string) : list string :=
  match s with
  | EmptyString => [EmptyString]
  | String c s' =>
      if Ascii.eqb c sep then EmptyString :: split_on sep s'
      else match split_on sep s' with
           | [] => [String c EmptyString]
           | piece :: pieces => String c piece :: pieces
           end
  end.

(** [sep.join(l)] *)
Fixpoint join (sep : string) (l : list string) : string :=
  match l with
  | [] => ""
  | [x] => x
  | x :: rest => x +:+ sep +:+ join sep rest
  end.

(** [s.startswith(p)] *)
Fixpoint startswith (p s : string) : bool :=
  match p, s with
  | EmptyString, _ => true
  | String _ _, EmptyString => false
  | String a p', String b s' => Ascii.eqb a b && startswith p' s'
  end.

(** [sub in s] *)
Fixpoint contains (sub s : string) : bool :=
  startswith sub s ||
  match s with
  | EmptyString => false
  | String _ s' => contains sub s'
  end.

(** [s.lstrip()] and [s.rstrip()], hence [s.strip()]. *)
Fixpoint lstrip (s : string) : string :=
  match s with
  | EmptyString => EmptyString
  | String c s' => if isspace c then lstrip s' else s
  end.

Fixpoint rstrip (s : string) : string :=
  match s with
  | EmptyString => EmptyString
  | String c s' =>
      match rstrip s' with
      | EmptyString => if isspace c then EmptyString else String c EmptyString
      | r => String c r
      end
  end.

Definition strip (s : string) : string := lstrip (rstrip s).

(** Does [s] begin with a character that is not white space? *)
Definition starts_word (s : string) : bool :=
  match s with
  | EmptyString => false
  | String c _ => negb (isspace c)
  end.

(** [s.split()]: the maximal runs of characters that are not white
    space, in order. A character that is followed by another word
    character extends the first word of the rest; otherwise it is a word
    of its own. *)
Fixpoint split (s : string) : list string :=
  match s with
  | EmptyString => []
  | String c s' =>
      if isspace c then split s'
      else if starts_word s' then
             match split s' with
             | [] => [String c EmptyString]
             | w :: ws => String c w :: ws
             end
           else String c EmptyString :: split s'
  end.

(** [l.index(x)]: the first position of [x], [None] for [ValueError]. *)
Fixpoint index (x : string) (l : list string) : option nat :=
  match l with
  | [] => None
  | y :: l' => if String.eqb y x then Some 0%nat else S <$> index x l'
  end.

(** The value of a decimal digit, from its code point (48 for the
    digit zero to 57 for the digit nine). *)
Definition digit (c : ascii) : option Z :=
  let code := Z.of_N (N_of_ascii c) in
  if (48 <=? code) && (code <=? 57) then Some (code - 48) else None.

(** The digits of an integer literal: at least one digit, and single
    underscores allowed between digits only. [after_digit] tells whether
    the previous character was a digit. *)
Fixpoint digits (after_digit : bool) (acc : Z) (s : string) : option Z :=
  match s with
  | EmptyString => if after_digit then Some acc else None
  | String c s' =>
      match digit c with
      | Some d => digits true (10 * acc + d) s'
      | None =>
          if Ascii.eqb c "_" && after_digit then digits false acc s'
          else None
      end
  end.

(** [int(s)] for a token [s] (no surrounding white space is left in a
    token): an optional sign and a decimal literal of any length;
    [None] for [ValueError]. *)
Definition int (s : string) : option Z :=
  match s with
  | String "+" s' => digits false 0 s'
  | String "-" s' => Z.opp <$> digits false 0 s'
  | _ => digits false 0 s
  end.

End Py.

(** ** Floats, exceptions and diagnostics *)

(** The float operations of the scripts. [truediv n d] is [n / d] for an
    [int] [n] and a non-zero [float] [d]; [round2 x] is [round(x, 2)];
    [is_zero d] tells whether [d] compares equal to [0.0], in which case
    Python raises [ZeroDivisionError] instead of dividing. *)
Class PyFloat (F : Type) := {
  truediv : Z → F → F;
  round2 : F → F;
  is_zero : F → bool;
  f1e9 : F;
  f1e6 : F
}.

Inductive exn : Type :=
  | ZeroDivisionError
  | KeyError (column : string)
  | SystemExit (code : Z).

Inductive outcome (A : Type) : Type :=
  | Returned (a : A)
  | Raised (e : exn).
Arguments Returned {A} a.
Arguments Raised {A} e.

Global Instance outcome_ret : MRet outcome := λ A a, Returned a.
Global Instance outcome_bind : MBind outcome := λ A B k m,
  match m with
  | Returned a => k a
  | Raised e => Raised e
  end.

Global Instance outcome_fmap : FMap outcome := λ A B f m,
  match m with
  | Returned a => Returned (f a)
  | Raised e => Raised e
  end.

(** [n / d] with Python's check of the divisor. *)
Definition py_truediv `{PyFloat F} (n : Z) (d : F) : outcome F :=
  if is_zero d then Raised ZeroDivisionError else Returned (truediv n d).

(** What a script reports on the standard error stream about an input. *)
Inductive diag : Type :=
  | OpenError (inFile : string)         (* "Error opening file ..." *)
  | MissingColumn (inFile : string)     (* "... not found in header of ..." *)
  | ReadError (inFile : string)         (* "Error reading file ..." *)
  | NoData.                             (* "No data processed." *)

(** A text file is the list of its lines, a file system maps the names
    that can be opened to their files. *)
Definition text_file : Type := list string.
Definition filesystem : Type := string → option text_file.

(** [f.readline()] on a freshly opened file, and the lines left to
    [for line in f] afterwards. *)
Definition readline (f : text_file) : string := default "" (head f).
Definition remaining (f : text_file) : text_file := tail f.

(** Helpers for the list comprehensions of the scripts. *)
Definition sum_list (l : list Z) : Z := foldr Z.add 0 l.

(** [read_lengths.sort(reverse=True)]: a sort along the reversed order of
    the integers. *)
Definition desc (x y : Z) : Prop := y ≤ x.
Global Instance desc_dec : RelDecision desc := λ x y, decide (y ≤ x).
Definition sort_reverse (l : list Z) : list Z := merge_sort desc l.

(** [sum(i for i in read_lengths if i >= t)] *)
Definition sum_ge (t : Z) (read_lengths : list Z) : Z :=
  sum_list (filter (λ i, t ≤ i) read_lengths).

(** [len([i for i in read_lengths if i >= t])] *)
Definition count_ge (t : Z) (read_lengths : list Z) : Z :=
  Z.of_nat (length (filter (λ i, t ≤ i) read_lengths)).

(** The N50 loop, which all four processing functions spell out:
<<
    cumulative = 0; n50_val = 0
    for x in read_lengths:
        cumulative += x
        if cumulative >= target:      # target = total_bases / 2.0
            n50_val = x
            break
>>
    Python compares the integer [cumulative] with the float [target] by
    value, and [total_bases / 2.0] is the exact half of [total_bases] as
    long as the total is below 2^53, which the embedding takes for
    granted; the test is then [total_bases <= 2 * cumulative]. *)
Fixpoint n50_loop (total_bases cumulative : Z) (read_lengths : list Z) : Z :=
  match read_lengths with
  | [] => 0
  | x :: rest =>
      let cumulative := cumulative + x in
      if total_bases <=? 2 * cumulative then x
      else n50_loop total_bases cumulative rest
  end.

(** ** stats/calculate_summary_stats_v3_under_100kb.py *)

Module V3.

(** The shortening of one path: [parts[1] if len(parts) >= 2 else item]
    with [parts = item.split("/")]. *)
Definition second_field (item : string) : string :=
  let parts := Py.split_on "/" item in
  if (2 <=? length parts)%nat then default item (parts !! 1%nat) else item.

Definition transform_file_field (file_field shortname_option : string) : string :=
  if negb (String.eqb shortname_option "yes") then file_field
  else if Py.contains "," file_field then
    let files_list := Py.split_on "," file_field in
    let new_list := map second_field files_list in
    Py.join "," new_list
  else second_field file_field.

Definition extract_flowcell_id (header parts : list string) : string :=
  let found :=
    match Py.index "filename_pod5" header with
    | Some idx => Some idx
    | None => Py.index "filename" header
    end in
  match found with
  | None => ""
  | Some idx =>
      match parts !! idx with        (* len(parts) > idx *)
      | Some field => default "" (head (Py.split_on "_" field))
      | None => ""
      end
  end.

(** [main]: the label of a row is [transform_file_field] of the file
    field followed by the suffix
    ([if options.append_str: ... + "_" + options.append_str]). *)
Definition output_label (file_field shortname append_str : string) : string :=
  let label := transform_file_field file_field shortname in
  if String.eqb append_str "" then label
  else label +:+ "_" +:+ append_str.

(** The test that skips a header repeated inside the data:
    ['filename' in line and 'read_id' in line]. *)
Definition repeated_header (line : string) : bool :=
  Py.contains "filename" line && Py.contains "read_id" line.

(** The variables that the reading loop of [process_single_file]
    updates: [read_lengths], [bases] and [flowcell_id] ([None] until the
    first row that reaches the length column). *)
Record single_state : Type := {
  s_read_lengths : list Z;
  s_bases : Z;
  s_flowcell_id : option string
}.

Definition single_init : single_state :=
  {| s_read_lengths := []; s_bases := 0; s_flowcell_id := None |}.

(** One turn of [for line in f] in [process_single_file]. *)
Definition single_line (header : list string) (length_index : nat)
    (st : single_state) (line : string) : single_state :=
  if repeated_header line then st
  else
    let parts := Py.split (Py.strip line) in
    if (length parts <=? length_index)%nat then st
    else
      let flowcell_id :=
        match s_flowcell_id st with
        | None => Some (extract_flowcell_id header parts)
        | Some seen => Some seen
        end in
      match parts !! length_index ≫= Py.int with
      | None =>                      (* ValueError: continue *)
          {| s_read_lengths := s_read_lengths st; s_bases := s_bases st;
             s_flowcell_id := flowcell_id |}
      | Some length =>
          {| s_read_lengths := s_read_lengths st ++ [length];
             s_bases := s_bases st + length;
             s_flowcell_id := flowcell_id |}
      end.

(** The variables of the reading loops of [process_aggregated_files],
    with what has been written on the standard error stream. *)
Record agg_state : Type := {
  a_read_lengths : list Z;
  a_bases : Z;
  a_flowcell_ids : gset string;
  a_file_names : list string;
  a_stderr : list diag
}.

Definition agg_init : agg_state :=
  {| a_read_lengths := []; a_bases := 0; a_flowcell_ids := ∅;
     a_file_names := []; a_stderr := [] |}.

(** One turn of the inner [for line in f] of [process_aggregated_files]. *)
Definition aggregated_line (header : list string) (length_index : nat)
    (st : agg_state) (line : string) : agg_state :=
  if repeated_header line then st
  else
    let parts := Py.split (Py.strip line) in
    if (length parts <=? length_index)%nat then st
    else
      let flowcell_id := extract_flowcell_id header parts in
      let flowcell_ids :=
        if String.eqb flowcell_id "" then a_flowcell_ids st
        else {[ flowcell_id ]} ∪ a_flowcell_ids st in
      match parts !! length_index ≫= Py.int with
      | None =>                      (* ValueError: continue *)
          {| a_read_lengths := a_read_lengths st; a_bases := a_bases st;
             a_flowcell_ids := flowcell_ids;
             a_file_names := a_file_names st; a_stderr := a_stderr st |}
      | Some length =>
          {| a_read_lengths := a_read_lengths st ++ [length];
             a_bases := a_bases st + length;
             a_flowcell_ids := flowcell_ids;
             a_file_names := a_file_names st; a_stderr := a_stderr st |}
      end.

Definition report (d : diag) (st : agg_state) : agg_state :=
  {| a_read_lengths := a_read_lengths st; a_bases := a_bases st;
     a_flowcell_ids := a_flowcell_ids st;
     a_file_names := a_file_names st; a_stderr := a_stderr st ++ [d] |}.

Definition name_file (inFile : string) (st : agg_state) : agg_state :=
  {| a_read_lengths := a_read_lengths st; a_bases := a_bases st;
     a_flowcell_ids := a_flowcell_ids st;
     a_file_names := a_file_names st ++ [inFile]; a_stderr := a_stderr st |}.

(** One turn of the outer [for inFile in files]. *)
Definition aggregated_file (fs : filesystem) (st : agg_state) (inFile : string)
    : agg_state :=
  match fs inFile with
  | None => report (OpenError inFile) st
  | Some f =>
      let st := name_file inFile st in
      let header := Py.split (Py.strip (readline f)) in
      match Py.index "sequence_length_template" header with
      | None => report (MissingColumn inFile) st
      | Some length_index =>
          foldl (aggregated_line header length_index) st (remaining f)
      end
  end.

Section WithFloat.
Context `{PyFloat F}.

(** The dictionary that both processing functions return. The keys
    ["20kb+"] .. ["100kb+"] are named after the variables that hold
    their values. *)
Record stats : Type := {
  File : string;
  flowcell_id : string;
  read_N50 : Z;
  Gb : F;
  coverage : F;
  lt20 : F;
  lt40 : F;
  lt60 : F;
  lt80 : F;
  lt100 : F;
  whales : Z
}.

(** The statistics block, which [process_single_file] (lines 111-144)
    and [process_aggregated_files] (lines 193-226) both spell out; the
    two copies differ in the bound of the last comprehension
    ([num1000]), which is the parameter [whale_bound] here. *)
Definition summarise (whale_bound : Z) (file_field flowcell : string)
    (read_lengths : list Z) (bases : Z) (actual_genome_size : F)
    : outcome stats :=
  let read_lengths := sort_reverse read_lengths in
  let total_bases := bases in
  let total_gigabases := round2 (truediv total_bases f1e9) in
  let n50_val := n50_loop total_bases 0 read_lengths in
  coverage ← py_truediv total_bases actual_genome_size;
  lt20 ← py_truediv (sum_ge 20000 read_lengths) actual_genome_size;
  lt40 ← py_truediv (sum_ge 40000 read_lengths) actual_genome_size;
  lt60 ← py_truediv (sum_ge 60000 read_lengths) actual_genome_size;
  lt80 ← py_truediv (sum_ge 80000 read_lengths) actual_genome_size;
  lt100 ← py_truediv (sum_ge 100000 read_lengths) actual_genome_size;
  let num1000 := count_ge whale_bound read_lengths in
  mret {| File := file_field; flowcell_id := flowcell;
          read_N50 := n50_val; Gb := total_gigabases;
          coverage := round2 coverage;
          lt20 := round2 lt20; lt40 := round2 lt40; lt60 := round2 lt60;
          lt80 := round2 lt80; lt100 := round2 lt100;
          whales := num1000 |}.

Definition process_single_file (fs : filesystem) (inFile : string)
    (actual_genome_size : F) : list diag * outcome (option stats) :=
  match fs inFile with
  | None => ([OpenError inFile], Returned None)
  | Some f =>
      let header := Py.split (Py.strip (readline f)) in
      match Py.index "sequence_length_template" header with
      | None => ([MissingColumn inFile], Returned None)
      | Some length_index =>
          let st := foldl (single_line header length_index) single_init
                          (remaining f) in
          match s_read_lengths st with
          | [] => ([], Returned None)
          | _ :: _ =>
              ([], Some <$> summarise 1000000 inFile
                              (default "" (s_flowcell_id st))
                              (s_read_lengths st) (s_bases st)
                              actual_genome_size)
          end
      end
  end.

Definition process_aggregated_files (fs : filesystem) (files : list string)
    (actual_genome_size : F) : list diag * outcome (option stats) :=
  let st := foldl (aggregated_file fs) agg_init files in
  match a_read_lengths st with
  | [] => (a_stderr st, Returned None)
  | _ :: _ =>
      (a_stderr st,
       Some <$> summarise 100000 (Py.join "," (a_file_names st))
                  (Py.join "," (merge_sort String.le
                                  (elements (a_flowcell_ids st))))
                  (a_read_lengths st) (a_bases st) actual_genome_size)
  end.

(** [main]: the assignments to [stats["File"]]. *)
Definition relabel (shortname append_str : string) (row : stats) : stats :=
  {| File := output_label (File row) shortname append_str;
     flowcell_id := flowcell_id row;
     read_N50 := read_N50 row; Gb := Gb row; coverage := coverage row;
     lt20 := lt20 row; lt40 := lt40 row; lt60 := lt60 row;
     lt80 := lt80 row; lt100 := lt100 row; whales := whales row |}.

(** What a run has written: the rows on the standard output (after the
    header row) and the diagnostics, and how it ended. *)
Record run : Type := {
  rows : list stats;
  messages : list diag;
  ending : outcome unit
}.

(** [main], directory mode: [for f in files] over the files found. *)
Fixpoint directory_mode (fs : filesystem) (files : list string)
    (actual_genome_size : F) (shortname append_str : string) : run :=
  match files with
  | [] => {| rows := []; messages := []; ending := Returned () |}
  | f :: files' =>
      let '(said, result) := process_single_file fs f actual_genome_size in
      match result with
      | Raised e => {| rows := []; messages := said; ending := Raised e |}
      | Returned None =>
          let later := directory_mode fs files' actual_genome_size
                         shortname append_str in
          {| rows := rows later; messages := said ++ messages later;
             ending := ending later |}
      | Returned (Some row) =>
          let later := directory_mode fs files' actual_genome_size
                         shortname append_str in
          {| rows := relabel shortname append_str row :: rows later;
             messages := said ++ messages later;
             ending := ending later |}
      end
  end.

(** [main], aggregated mode. *)
Definition aggregated_mode (fs : filesystem) (args : list string)
    (actual_genome_size : F) (shortname append_str : string) : run :=
  let '(said, result) := process_aggregated_files fs args actual_genome_size in
  match result with
  | Raised e => {| rows := []; messages := said; ending := Raised e |}
  | Returned None => {| rows := []; messages := said; ending := Returned () |}
  | Returned (Some row) =>
      {| rows := [relabel shortname append_str row]; messages := said;
         ending := Returned () |}
  end.

End WithFloat.

Arguments stats F : clear implicits.
Arguments run F : clear implicits.

End V3.

(** ** calculate_summary_stats_rna.py *)

Module Rna.

(** What [pd.read_csv(f, sep=r'\s+')] gives for a summary file: the
    names of the columns and the rows. Only two columns are read by the
    script, so a row keeps the values of these two; the values of a
    column whose name is not in [columns] are never looked at. The
    columns are taken to be complete and numeric (no missing value). *)
Record row : Type := {
  mean_qscore_template : Q;
  sequence_length_template : Z
}.

Record DataFrame : Type := {
  columns : list string;
  records : list row
}.

(** An input as the script meets it: [None] when it cannot be opened,
    [Unreadable] when [read_csv] raises, otherwise the parsed frame. *)
Inductive source : Type :=
  | Unreadable
  | Parsed (df : DataFrame).

Definition sources : Type := string → option source.

Definition has_column (name : string) (df : DataFrame) : bool :=
  bool_decide (name ∈ columns df).

(** [df.drop(columns=[...], errors='ignore')] *)
Definition dropped : list string :=
  ["filename"; "read_id"; "run_id"; "channel"; "mux"; "start_time";
   "duration"; "template_start"; "template_duration"].

Definition drop (df : DataFrame) : DataFrame :=
  {| columns := filter (λ c, c ∉ dropped) (columns df);
     records := records df |}.

(** [len(df[df['mean_qscore_template'] >= t])] *)
Definition count_quality (t : Q) (df : DataFrame) : outcome Z :=
  if has_column "mean_qscore_template" df then
    Returned (Z.of_nat (length
      (filter (λ r, Qle_bool t (mean_qscore_template r) = true) (records df))))
  else Raised (KeyError "mean_qscore_template").

(** [df['sequence_length_template']] *)
Definition lengths_column (df : DataFrame) : outcome (list Z) :=
  if has_column "sequence_length_template" df then
    Returned (map sequence_length_template (records df))
  else Raised (KeyError "sequence_length_template").

Definition second_field (item : string) : string :=
  let parts := Py.split_on "/" item in
  if (2 <=? length parts)%nat then default item (parts !! 1%nat) else item.

Definition transform_file_field (file_field shortname_option : string) : string :=
  if negb (String.eqb shortname_option "yes") then file_field
  else if Py.contains "," file_field then
    let files_list := Py.split_on "," file_field in
    let new_list := map second_field files_list in
    Py.join "," new_list
  else second_field file_field.

(** [main]: shortening and suffix of the sample name of a row. *)
Definition output_label (file_field shortname append_str : string) : string :=
  let label := transform_file_field file_field shortname in
  if String.eqb append_str "" then label
  else label +:+ "_" +:+ append_str.

(** The counters of [process_aggregated_rna_files]. *)
Record totals : Type := {
  total_reads : Z;
  total_bases : Z;
  count_q5 : Z;
  count_q10 : Z;
  count_q15 : Z;
  count_q20 : Z;
  count_q25 : Z;
  read_lengths : list Z;
  said : list diag
}.

Definition totals_init : totals :=
  {| total_reads := 0; total_bases := 0; count_q5 := 0; count_q10 := 0;
     count_q15 := 0; count_q20 := 0; count_q25 := 0; read_lengths := [];
     said := [] |}.

Definition report (d : diag) (t : totals) : totals :=
  {| total_reads := total_reads t; total_bases := total_bases t;
     count_q5 := count_q5 t; count_q10 := count_q10 t;
     count_q15 := count_q15 t; count_q20 := count_q20 t;
     count_q25 := count_q25 t; read_lengths := read_lengths t;
     said := said t ++ [d] |}.

(** One turn of [for inFile in file_list]. *)
Definition aggregated_file (fs : sources) (t : totals) (inFile : string)
    : outcome totals :=
  match fs inFile with
  | None => Returned (report (OpenError inFile) t)
  | Some Unreadable => Returned (report (ReadError inFile) t)
  | Some (Parsed df) =>
      let df := drop df in
      q5 ← count_quality 5 df;
      q10 ← count_quality 10 df;
      q15 ← count_quality 15 df;
      q20 ← count_quality 20 df;
      q25 ← count_quality 25 df;
      bases ← lengths_column df;
      mret {| total_reads := total_reads t + Z.of_nat (length (records df));
              total_bases := total_bases t + sum_list bases;
              count_q5 := count_q5 t + q5; count_q10 := count_q10 t + q10;
              count_q15 := count_q15 t + q15; count_q20 := count_q20 t + q20;
              count_q25 := count_q25 t + q25;
              read_lengths := read_lengths t ++ bases;
              said := said t |}
  end.

(** [for inFile in file_list], which an exception leaves at once. *)
Fixpoint aggregated_loop (fs : sources) (t : totals) (file_list : list string)
    : outcome totals :=
  match file_list with
  | [] => Returned t
  | inFile :: rest => t' ← aggregated_file fs t inFile; aggregated_loop fs t' rest
  end.

Section WithFloat.
Context `{PyFloat F}.

Record stats : Type := {
  Sample : string;
  total_Gbp : F;
  N50 : Z;
  total_reads_M : F;
  q5_reads_M : F;
  q10_reads_M : F;
  q15_reads_M : F;
  q20_reads_M : F;
  q25_reads_M : F
}.

(** The statistics block of both processing functions (lines 100-129
    and 183-213). *)
Definition summarise (sample : string) (t : totals) : stats :=
  let read_lengths := sort_reverse (read_lengths t) in
  let N50 := n50_loop (total_bases t) 0 read_lengths in
  {| Sample := sample;
     total_Gbp := round2 (truediv (total_bases t) f1e9);
     N50 := N50;
     total_reads_M := truediv (total_reads t) f1e6;
     q5_reads_M := round2 (truediv (count_q5 t) f1e6);
     q10_reads_M := round2 (truediv (count_q10 t) f1e6);
     q15_reads_M := round2 (truediv (count_q15 t) f1e6);
     q20_reads_M := round2 (truediv (count_q20 t) f1e6);
     q25_reads_M := round2 (truediv (count_q25 t) f1e6) |}.

Definition process_rna_file (fs : sources) (inFile : string)
    : list diag * outcome (option stats) :=
  match fs inFile with
  | None => ([OpenError inFile], Returned None)
  | Some Unreadable => ([ReadError inFile], Returned None)
  | Some (Parsed df) =>
      let df := drop df in
      ([],
       q5 ← count_quality 5 df;
       q10 ← count_quality 10 df;
       q15 ← count_quality 15 df;
       q20 ← count_quality 20 df;
       q25 ← count_quality 25 df;
       bases ← lengths_column df;
       mret (Some (summarise inFile
         {| total_reads := Z.of_nat (length (records df));
            total_bases := sum_list bases;
            count_q5 := q5; count_q10 := q10; count_q15 := q15;
            count_q20 := q20; count_q25 := q25;
            read_lengths := bases; said := [] |})))
  end.

Definition process_aggregated_rna_files (fs : sources)
    (file_list : list string) : outcome (list diag * option stats) :=
  t ← aggregated_loop fs totals_init file_list;
  if total_reads t =? 0 then mret (said t, None)
  else mret (said t, Some (summarise (Py.join "," file_list) t)).

Definition with_sample (label : string) (res : stats) : stats :=
  {| Sample := label; total_Gbp := total_Gbp res; N50 := N50 res;
     total_reads_M := total_reads_M res; q5_reads_M := q5_reads_M res;
     q10_reads_M := q10_reads_M res; q15_reads_M := q15_reads_M res;
     q20_reads_M := q20_reads_M res; q25_reads_M := q25_reads_M res |}.

(** [main]: the assignments to [res["Sample"]]. *)
Definition relabel (shortname append_str : string) (res : stats) : stats :=
  with_sample (output_label (Sample res) shortname append_str) res.

Record run : Type := {
  rows : list stats;
  messages : list diag;
  ending : outcome unit
}.

(** [main], directory mode: the loop that collects [results]. *)
Fixpoint collect (fs : sources) (files : list string)
    : list diag * outcome (list stats) :=
  match files with
  | [] => ([], Returned [])
  | f :: files' =>
      let '(told, result) := process_rna_file fs f in
      match result with
      | Raised e => (told, Raised e)
      | Returned res =>
          let '(told', later) := collect fs files' in
          (told ++ told', (λ l, option_list res ++ l) <$> later)
      end
  end.

(** [main], directory mode: rows are written once every file has been
    processed. *)
Definition directory_mode (fs : sources) (files : list string)
    (shortname append_str : string) : run :=
  let '(told, results) := collect fs files in
  match results with
  | Raised e => {| rows := []; messages := told; ending := Raised e |}
  | Returned results =>
      {| rows := map (relabel shortname append_str) results;
         messages := told; ending := Returned () |}
  end.

(** [main], aggregated mode; [name] is the option [-n]. *)
Definition aggregated_mode (fs : sources) (nfile : list string)
    (name : option string) (shortname append_str : string) : run :=
  match process_aggregated_rna_files fs nfile with
  | Raised e => {| rows := []; messages := []; ending := Raised e |}
  | Returned (told, None) =>
      {| rows := []; messages := told ++ [NoData];
         ending := Raised (SystemExit 1) |}
  | Returned (told, Some res) =>
      let sample_field :=
        match name with
        | Some n => if String.eqb n "" then Sample res else n
        | None => Sample res
        end in
      {| rows := [relabel shortname append_str (with_sample sample_field res)];
         messages := told; ending := Returned () |}
  end.

End WithFloat.

Arguments stats F : clear implicits.
Arguments run F : clear implicits.

End Rna.

(** ** Notions used to state the properties *)

(** The numeric fields of a row of the length-bucket variant: all but the
    two labels [File] and [flowcell_id]. *)
Definition numbers {F} (r : V3.stats F) : Z * F * F * F * F * F * F * F * Z :=
  (V3.read_N50 r, V3.Gb r, V3.coverage r, V3.lt20 r, V3.lt40 r, V3.lt60 r,
   V3.lt80 r, V3.lt100 r, V3.whales r).

(** The length that a data line adds to [read_lengths], if it adds one:
    the line is not a repeated header, reaches the length column, and has
    an integer there. *)
Definition accepted_length (length_index : nat) (line : string) : option Z :=
  if V3.repeated_header line then None
  else Py.split (Py.strip line) !! length_index ≫= Py.int.

(** The identifier read from a data line, if the line gets as far as the
    extraction: it is not a repeated header and reaches the length column. *)
Definition line_identifier (header : list string) (length_index : nat)
    (line : string) : option string :=
  if V3.repeated_header line then None
  else
    let parts := Py.split (Py.strip line) in
    if (length parts <=? length_index)%nat then None
    else Some (V3.extract_flowcell_id header parts).

(** The header, the position of the length column and the data lines of an
    input that can be opened and has the length column. *)
Definition usable (fs : filesystem) (inFile : string)
    : option (list string * nat * list string) :=
  f ← fs inFile;
  let header := Py.split (Py.strip (readline f)) in
  length_index ← Py.index "sequence_length_template" header;
  Some (header, length_index, remaining f).

(** The lengths and the identifiers that the rows of an input provide. *)
Definition file_lengths (fs : filesystem) (inFile : string) : list Z :=
  match usable fs inFile with
  | Some (_, length_index, lines) => omap (accepted_length length_index) lines
  | None => []
  end.

Definition file_identifiers (fs : filesystem) (inFile : string) : list string :=
  match usable fs inFile with
  | Some (header, length_index, lines) =>
      filter (λ id, id ≠ "") (omap (line_identifier header length_index) lines)
  | None => []
  end.

(** The accumulator of one input on its own. *)
Definition contribution (fs : filesystem) (inFile : string) : V3.agg_state :=
  {| V3.a_read_lengths := file_lengths fs inFile;
     V3.a_bases := sum_list (file_lengths fs inFile);
     V3.a_flowcell_ids := list_to_set (file_identifiers fs inFile);
     V3.a_file_names := match fs inFile with Some _ => [inFile] | None => [] end;
     V3.a_stderr :=
       match fs inFile, usable fs inFile with
       | None, _ => [OpenError inFile]
       | Some _, None => [MissingColumn inFile]
       | Some _, Some _ => []
       end |}.

(** The aggregate of a list of inputs, as [process_aggregated_files] builds
    it before the statistics block. *)
Definition accumulate (fs : filesystem) (files : list string) : V3.agg_state :=
  foldl (V3.aggregated_file fs) V3.agg_init files.

(** The merge of two accumulators in the words of the specification:
    lengths concatenate, bases add, identifiers form a set union, source
    names concatenate in input order. *)
Definition merge (a b : V3.agg_state) : V3.agg_state :=
  {| V3.a_read_lengths := V3.a_read_lengths a ++ V3.a_read_lengths b;
     V3.a_bases := V3.a_bases a + V3.a_bases b;
     V3.a_flowcell_ids := V3.a_flowcell_ids a ∪ V3.a_flowcell_ids b;
     V3.a_file_names := V3.a_file_names a ++ V3.a_file_names b;
     V3.a_stderr := V3.a_stderr a ++ V3.a_stderr b |}.

(** [sorted(flowcell_ids)] *)
Definition rendered (ids : gset string) : list string :=
  merge_sort String.le (elements ids).

(** The label transform in the words of the specification: a component is
    replaced by the segment at index 1 of its split on ["/"] when there are
    at least two segments; shortening acts on every component between
    commas; a suffix that is not empty is appended after ["_"]. *)
Definition spec_shorten (component : string) : string :=
  match Py.split_on "/" component with
  | _ :: segment :: _ => segment
  | _ => component
  end.

Definition spec_label (label : string) (shortening : bool) (suffix : string)
    : string :=
  let label :=
    if shortening then Py.join "," (map spec_shorten (Py.split_on "," label))
    else label in
  match suffix with
  | EmptyString => label
  | _ => label +:+ "_" +:+ suffix
  end.

(** The N50 in the words of the specification. [running_sum i l] is the
    sum of the first [i + 1] values of [l]; position [i] is the first
    crossing when the running sum reaches half of the total there and at
    no earlier position. *)
Definition running_sum (i : nat) (l : list Z) : Z := sum_list (take (S i) l).

Definition first_crossing (total : Z) (l : list Z) (i : nat) : Prop :=
  total ≤ 2 * running_sum i l ∧
  ∀ j, (j < i)%nat → 2 * running_sum j l < total.

Definition is_N50 (lengths : list Z) (value : Z) : Prop :=
  ∃ (sorted : list Z) (i : nat),
    sorted ≡ₚ lengths ∧ Sorted desc sorted ∧
    first_crossing (sum_list lengths) sorted i ∧
    sorted !! i = Some value.

(** The N50 that the scripts compute from the accepted lengths. *)
Definition computed_N50 (lengths : list Z) : Z :=
  n50_loop (sum_list lengths) 0 (sort_reverse lengths).

(** The order of the five quality counters and of the number of reads. *)
Definition ordered_counts (t : Rna.totals) : Prop :=
  Rna.count_q25 t ≤ Rna.count_q20 t ∧ Rna.count_q20 t ≤ Rna.count_q15 t ∧
  Rna.count_q15 t ≤ Rna.count_q10 t ∧ Rna.count_q10 t ≤ Rna.count_q5 t ∧
  Rna.count_q5 t ≤ Rna.total_reads t.

(** The lines that the specification lets a row-stream drop in silence:
    a line whose tokens contain both header markers, a line with fewer
    fields than the index of the length column, and a line whose field at
    that index is not an integer. *)
Definition spec_repeated_header (line : string) : bool :=
  let tokens := Py.split line in
  existsb (Py.contains "filename") tokens && existsb (Py.contains "read_id") tokens.

Definition spec_short (length_index : nat) (line : string) : bool :=
  (length (Py.split line) <? length_index)%nat.

Definition spec_not_integer (length_index : nat) (line : string) : bool :=
  match Py.split line !! length_index with
  | Some field => bool_decide (Py.int field = None)
  | None => false
  end.

Definition spec_skipped (length_index : nat) (line : string) : bool :=
  spec_repeated_header line || spec_short length_index line
  || spec_not_integer length_index line.

(** A file with those lines removed from its data lines. *)
Definition without_skipped (f : text_file) : text_file :=
  match f with
  | [] => []
  | header :: lines =>
      match Py.index "sequence_length_template" (Py.split (Py.strip header)) with
      | Some length_index =>
          header :: filter (λ line, spec_skipped length_index line = false) lines
      | None => f
      end
  end.

(** What a call returns, reduced to the numbers of the row. *)
Definition returned_numbers {F} (result : list diag * outcome (option (V3.stats F)))
    : outcome (option (Z * F * F * F * F * F * F * F * Z)) :=
  fmap (M:=outcome) (fmap (M:=option) numbers) (snd result).

(** What a call returns, reduced to the identifier field of the row. *)
Definition returned_cell {F} (result : list diag * outcome (option (V3.stats F)))
    : outcome (option string) :=
  fmap (M:=outcome) (fmap (M:=option) V3.flowcell_id) (snd result).

(** The per-file identifiers as the specification states them: the row of
    a file carries every identifier observed in the file. *)
Definition per_file_full_identifier_set (F : Type) `{PyFloat F} : Prop :=
  ∀ fs inFile (size : F) said r id,
    V3.process_single_file fs inFile size = (said, Returned (Some r)) →
    id ∈ file_identifiers fs inFile →
    Py.contains id (V3.flowcell_id r) = true.

(** The numbers of a row apart from the count of very long reads. *)
Definition numbers_but_whales {F} (r : V3.stats F) : Z * F * F * F * F * F * F * F :=
  (V3.read_N50 r, V3.Gb r, V3.coverage r, V3.lt20 r, V3.lt40 r, V3.lt60 r,
   V3.lt80 r, V3.lt100 r).

(** An input that can be opened and whose header lacks the length column. *)
Definition lacks_length_column (fs : filesystem) (inFile : string) : Prop :=
  is_Some (fs inFile) ∧ usable fs inFile = None.

(** The handling of a missing length column as the specification states
    it for an aggregate: the row written is the row of the other inputs. *)
Definition missing_column_contributes_nothing (F : Type) `{PyFloat F} : Prop :=
  ∀ fs before inFile after (size : F) shortname suffix,
    lacks_length_column fs inFile →
    V3.rows (V3.aggregated_mode fs (before ++ inFile :: after) size shortname suffix) =
    V3.rows (V3.aggregated_mode fs (before ++ after) size shortname suffix).

(** ** Inputs for the examples *)

(** Floats as exact rationals, to run the scripts on examples. *)
Definition exact_round2 (x : Q) : Q := Qmake (Qfloor (x * 100 + (1 # 2))) 100.

Global Instance exact_float : PyFloat Q := {|
  truediv n d := (inject_Z n / d)%Q;
  round2 := exact_round2;
  is_zero d := Qeq_bool d 0;
  f1e9 := inject_Z 1000000000;
  f1e6 := inject_Z 1000000
|}.

(** A human genome, [--size 3.3]. *)
Definition human : Q := inject_Z 3300000000.

Definition newline : string := String "010" "".

(** A summary with a header repeated in the data, a short row and a row
    whose length is not a number, and the same summary without them. *)
Definition noisy_summary : text_file :=
  [ "filename read_id sequence_length_template" +:+ newline;
    "FC1_a.fast5 r1 1000" +:+ newline;
    "filename read_id sequence_length_template" +:+ newline;
    "FC1_a.fast5 r2 500" +:+ newline;
    "FC1_b.fast5" +:+ newline;
    "FC1_b.fast5 r3 n/a" +:+ newline;
    "FC1_b.fast5 r4 300" +:+ newline ].

Definition tidy_summary : text_file :=
  [ "filename read_id sequence_length_template" +:+ newline;
    "FC1_a.fast5 r1 1000" +:+ newline;
    "FC1_a.fast5 r2 500" +:+ newline;
    "FC1_b.fast5 r4 300" +:+ newline ].

Definition one_file (name : string) (f : text_file) : filesystem :=
  λ asked, if String.eqb asked name then Some f else None.

(** Two summaries that share the flow cell [FC2] and have one flow cell
    each of their own. *)
Definition two_runs : filesystem := λ asked,
  if String.eqb asked "runA/s1/summary.txt" then
    Some [ "filename read_id sequence_length_template" +:+ newline;
           "FC2_a.fast5 r1 1000" +:+ newline;
           "FC3_a.fast5 r2 500" +:+ newline ]
  else if String.eqb asked "runB/s2/summary.txt" then
    Some [ "read_id filename_pod5 sequence_length_template" +:+ newline;
           "r3 FC1_b.pod5 300" +:+ newline;
           "r4 FC2_b.pod5 200" +:+ newline ]
  else None.

(** A batch with a summary that has no length column. *)
Definition mixed_batch : filesystem := λ asked,
  if String.eqb asked "bad.txt" then
    Some [ "filename read_id" +:+ newline; "FC7_x.fast5 r1" +:+ newline ]
  else if String.eqb asked "good.txt" then
    Some [ "filename read_id sequence_length_template" +:+ newline;
           "FC1_a.fast5 r1 1000" +:+ newline ]
  else None.

(** A summary with one read of 150 kb. *)
Definition long_read : filesystem :=
  one_file "run/s1/summary.txt"
    [ "filename read_id sequence_length_template" +:+ newline;
      "FC1_a.fast5 r1 150000" +:+ newline ].

(** A summary of the quality variant with a header and no row. *)
Definition header_only : Rna.sources :=
  λ asked,
    if String.eqb asked "run/s1/sequencing_summary.txt" then
      Some (Rna.Parsed
              {| Rna.columns := ["filename"; "read_id"; "sequence_length_template";
                                 "mean_qscore_template"];
                 Rna.records := [] |})
    else None.

(** ** Further notions *)

(** What is reported about an input of the length variant: nothing when
    it can be opened and has the length column. *)
Definition file_diagnostic (fs : filesystem) (inFile : string) : option diag :=
  match fs inFile, usable fs inFile with
  | None, _ => Some (OpenError inFile)
  | Some _, None => Some (MissingColumn inFile)
  | Some _, Some _ => None
  end.

(** Does an input provide at least one length? *)
Definition has_data (fs : filesystem) (inFile : string) : bool :=
  bool_decide (file_lengths fs inFile ≠ []).

(** The sum of two sets of counters of the quality variant. *)
Definition rna_merge (a b : Rna.totals) : Rna.totals :=
  {| Rna.total_reads := Rna.total_reads a + Rna.total_reads b;
     Rna.total_bases := Rna.total_bases a + Rna.total_bases b;
     Rna.count_q5 := Rna.count_q5 a + Rna.count_q5 b;
     Rna.count_q10 := Rna.count_q10 a + Rna.count_q10 b;
     Rna.count_q15 := Rna.count_q15 a + Rna.count_q15 b;
     Rna.count_q20 := Rna.count_q20 a + Rna.count_q20 b;
     Rna.count_q25 := Rna.count_q25 a + Rna.count_q25 b;
     Rna.read_lengths := Rna.read_lengths a ++ Rna.read_lengths b;
     Rna.said := Rna.said a ++ Rna.said b |}.

(** Two sets of counters with the same numbers and the same lengths up to
    their order. *)
Definition same_counts (a b : Rna.totals) : Prop :=
  Rna.total_reads a = Rna.total_reads b ∧
  Rna.total_bases a = Rna.total_bases b ∧
  Rna.count_q5 a = Rna.count_q5 b ∧ Rna.count_q10 a = Rna.count_q10 b ∧
  Rna.count_q15 a = Rna.count_q15 b ∧ Rna.count_q20 a = Rna.count_q20 b ∧
  Rna.count_q25 a = Rna.count_q25 b ∧
  Rna.read_lengths a ≡ₚ Rna.read_lengths b.

(** The numeric fields of a row of the quality variant. *)
Definition rna_numbers {F} (res : Rna.stats F) : F * Z * F * F * F * F * F * F :=
  (Rna.total_Gbp res, Rna.N50 res, Rna.total_reads_M res, Rna.q5_reads_M res,
   Rna.q10_reads_M res, Rna.q15_reads_M res, Rna.q20_reads_M res,
   Rna.q25_reads_M res).

(** A frame that has the two columns that the statistics read. *)
Definition complete (df : Rna.DataFrame) : Prop :=
  "mean_qscore_template" ∈ Rna.columns df ∧
  "sequence_length_template" ∈ Rna.columns df.

(** An input of the quality variant that adds no read: it cannot be
    opened or read, or its frame is complete and has no row. *)
Definition adds_no_read (fs : Rna.sources) (inFile : string) : Prop :=
  match fs inFile with
  | Some (Rna.Parsed df) => complete df ∧ Rna.records df = []
  | _ => True
  end.

(** The counters that a complete frame adds. *)
Definition quality_count (t : Q) (df : Rna.DataFrame) : Z :=
  Z.of_nat (length (filter (λ r, Qle_bool t (Rna.mean_qscore_template r) = true)
                      (Rna.records df))).

Definition frame_totals (df : Rna.DataFrame) : Rna.totals :=
  {| Rna.total_reads := Z.of_nat (length (Rna.records df));
     Rna.total_bases := sum_list (map Rna.sequence_length_template (Rna.records df));
     Rna.count_q5 := quality_count 5 df;
     Rna.count_q10 := quality_count 10 df;
     Rna.count_q15 := quality_count 15 df;
     Rna.count_q20 := quality_count 20 df;
     Rna.count_q25 := quality_count 25 df;
     Rna.read_lengths := map Rna.sequence_length_template (Rna.records df);
     Rna.said := [] |}.

(** What the counters of the quality variant keep true. *)
Definition consistent (t : Rna.totals) : Prop :=
  Rna.total_reads t = Z.of_nat (length (Rna.read_lengths t)) ∧
  Rna.total_bases t = sum_list (Rna.read_lengths t) ∧
  0 ≤ Rna.count_q25 t ∧ Rna.count_q5 t ≤ Rna.total_reads t.

(** A frame with three reads, and inputs of the quality variant. *)
Definition three_reads : Rna.DataFrame :=
  {| Rna.columns := ["read_id"; "sequence_length_template"; "mean_qscore_template"];
     Rna.records :=
       [ {| Rna.mean_qscore_template := 12 # 1; Rna.sequence_length_template := 900 |};
         {| Rna.mean_qscore_template := 7 # 1; Rna.sequence_length_template := 400 |};
         {| Rna.mean_qscore_template := 21 # 1; Rna.sequence_length_template := 1500 |} ] |}.

Definition one_read : Rna.DataFrame :=
  {| Rna.columns := ["sequence_length_template"; "mean_qscore_template"];
     Rna.records :=
       [ {| Rna.mean_qscore_template := 9 # 1; Rna.sequence_length_template := 700 |} ] |}.

Definition no_quality : Rna.DataFrame :=
  {| Rna.columns := ["read_id"; "sequence_length_template"];
     Rna.records :=
       [ {| Rna.mean_qscore_template := 0; Rna.sequence_length_template := 700 |} ] |}.

Definition rna_runs : Rna.sources := λ asked,
  if String.eqb asked "a/s1/sequencing_summary.txt" then Some (Rna.Parsed three_reads)
  else if String.eqb asked "b/s2/sequencing_summary.txt" then Some (Rna.Parsed one_read)
  else if String.eqb asked "c/s3/sequencing_summary.txt" then Some (Rna.Parsed no_quality)
  else if String.eqb asked "d/s4/sequencing_summary.txt" then Some Rna.Unreadable
  else None.

(** ** [main] of the length variant, directory branch (lines 272-304)

    The file system is seen through three functions: [expand pattern] is
    [glob.glob(pattern)]; [isdir] is [os.path.isdir]; [below d] lists what
    a recursive glob below the directory [d] visits, that is the entries
    of [d] and of the directories under it, each as the path that glob
    returns for it and in the order of glob's traversal. The two searches
    [glob(os.path.join(d, "**", pattern), recursive=True)] keep the paths
    of [below d] whose last component matches the pattern. The name [d]
    is taken to hold no wildcard character of its own. *)
Record directory_tree : Type := {
  expand : string → list string;
  isdir : string → bool;
  below : string → list string
}.

(** [s.endswith(suffix)] *)
Fixpoint endswith (suffix s : string) : bool :=
  String.eqb suffix s ||
  match s with
  | EmptyString => false
  | String _ s' => endswith suffix s'
  end.

(** [os.path.basename] *)
Definition basename (path : string) : string :=
  default "" (last (Py.split_on "/" path)).

(** The names that the pattern ["sequencing_summary*"] matches. *)
Definition matches_sequencing_summary (name : string) : bool :=
  Py.startswith "sequencing_summary" name.

(** The names that the pattern ["*_summary.txt.gz"] matches: a pattern
    that begins with a wildcard matches no name that begins with a dot. *)
Definition matches_summary_gz (name : string) : bool :=
  endswith "_summary.txt.gz" name && negb (Py.startswith "." name).

(** [files = seq_summary_files + summary_files] *)
Definition summary_files_of (tree : directory_tree) (d : string) : list string :=
  let seq_summary_files :=
    filter (λ path, matches_sequencing_summary (basename path) = true) (below tree d) in
  let summary_files :=
    filter (λ path, matches_summary_gz (basename path) = true) (below tree d) in
  seq_summary_files ++ summary_files.

(** What [main] writes on the standard error stream. *)
Inductive notice : Type :=
  | About (d : diag)
  | NoDirectoryMatches (pattern : string)
  | NoSummaryFiles (d : string)
  | Usage.

Record main_run (F : Type) : Type := {
  written : list (V3.stats F);
  notices : list notice;
  exit : outcome unit
}.
Arguments written {F} _.
Arguments notices {F} _.
Arguments exit {F} _.

(** [for d in dirs] *)
Fixpoint main_directories `{PyFloat F} (tree : directory_tree) (fs : filesystem)
    (dirs : list string) (actual_genome_size : F) (shortname append_str : string)
    : main_run F :=
  match dirs with
  | [] => {| written := []; notices := []; exit := Returned () |}
  | d :: dirs' =>
      if negb (isdir tree d) then
        main_directories tree fs dirs' actual_genome_size shortname append_str
      else
        let files := summary_files_of tree d in
        match files with
        | [] =>
            let later := main_directories tree fs dirs' actual_genome_size
                           shortname append_str in
            {| written := written later;
               notices := NoSummaryFiles d :: notices later;
               exit := exit later |}
        | _ :: _ =>
            let here := V3.directory_mode fs files actual_genome_size
                          shortname append_str in
            match V3.ending here with
            | Raised e =>
                {| written := V3.rows here;
                   notices := About <$> V3.messages here;
                   exit := Raised e |}
            | Returned _ =>
                let later := main_directories tree fs dirs' actual_genome_size
                               shortname append_str in
                {| written := V3.rows here ++ written later;
                   notices := (About <$> V3.messages here) ++ notices later;
                   exit := exit later |}
            end
        end
  end.

(** [main] from line 271 on: directory mode when the option [--dir] is
    given (and not empty), aggregated mode when there are arguments, the
    usage text otherwise. *)
Definition main_modes `{PyFloat F} (tree : directory_tree) (fs : filesystem)
    (directory : option string) (args : list string) (actual_genome_size : F)
    (shortname append_str : string) : main_run F :=
  match directory with
  | Some (String c pattern) =>
      match expand tree (String c pattern) with
      | [] =>
          {| written := []; notices := [NoDirectoryMatches (String c pattern)];
             exit := Raised (SystemExit 1) |}
      | dirs =>
          main_directories tree fs dirs actual_genome_size shortname append_str
      end
  | _ =>
      match args with
      | _ :: _ =>
          let r := V3.aggregated_mode fs args actual_genome_size shortname append_str in
          {| written := V3.rows r; notices := About <$> V3.messages r;
             exit := V3.ending r |}
      | [] => {| written := []; notices := [Usage]; exit := Raised (SystemExit 0) |}
      end
  end.

(** A directory with a compressed summary under its usual name. *)
Definition run_tree : directory_tree :=
  {| expand := λ pattern, if String.eqb pattern "run*" then ["run1"; "run1.log"] else [];
     isdir := λ path, String.eqb path "run1";
     below := λ d,
       if String.eqb d "run1" then
         ["run1/s1"; "run1/s1/sequencing_summary.txt.gz"; "run1/s1/notes.txt"]
       else [] |}.

Definition run_files : filesystem :=
  one_file "run1/s1/sequencing_summary.txt.gz"
    [ "filename read_id sequence_length_template" +:+ newline;
      "FC1_a.fast5 r1 1500" +:+ newline ].

(** ** Facts about the built-ins *)

(** The built-ins on some inputs, as the interpreter answers. *)
Example split_on_examples :
  Py.split_on "/" "runA/sample1/raw.txt" = ["runA"; "sample1"; "raw.txt"] ∧
  Py.split_on "/" "/abs//path" = [""; "abs"; ""; "path"] ∧
  Py.split_on "," "" = [""] ∧
  Py.join "," ["a"; "b"; "c"] = "a,b,c" ∧ Py.join "," [] = "".
Proof. repeat split. Qed.

Example split_examples :
  Py.split (Py.strip ("  a bc" +:+ String "009" "d  " +:+ String "010" "")) = ["a"; "bc"; "d"] ∧
  Py.split "   " = [] ∧
  Py.strip "  a b  " = "a b" ∧
  Py.contains "read_id" "filename read_id" = true ∧
  Py.contains "read_id" "read-id" = false ∧
  Py.index "b" ["a"; "b"; "b"] = Some 1%nat ∧ Py.index "z" ["a"; "b"] = None.
Proof. repeat split. Qed.

Example int_examples :
  Py.int "1500" = Some 1500 ∧ Py.int "007" = Some 7 ∧ Py.int "+12" = Some 12 ∧
  Py.int "-12" = Some (-12) ∧ Py.int "1_000" = Some 1000 ∧
  Py.int "" = None ∧ Py.int "-" = None ∧ Py.int "12a" = None ∧
  Py.int "1.5" = None ∧ Py.int "_1" = None ∧ Py.int "1_" = None ∧
  Py.int "1__0" = None ∧ Py.int "n/a" = None.
Proof. repeat split. Qed.

Lemma startswith_sep_head (sep c : ascii) (s : string) :
  Py.startswith (String sep "") (String c s) = Ascii.eqb sep c.
Proof. simpl. by rewrite andb_true_r. Qed.

Lemma split_on_absent (sep : ascii) (s : string) :
  Py.contains (String sep "") s = false → Py.split_on sep s = [s].
Proof.
  induction s as [|c s IH]; [done|].
  cbn [Py.contains]. rewrite startswith_sep_head, orb_false_iff.
  intros [Hc Hs]. cbn [Py.split_on].
  rewrite Ascii.eqb_sym, Hc, (IH Hs). done.
Qed.

Lemma split_lstrip (s : string) : Py.split (Py.lstrip s) = Py.split s.
Proof.
  induction s as [|c s IH]; [done|].
  cbn [Py.lstrip]. destruct (Py.isspace c) eqn:Hc; [|done].
  rewrite IH. cbn [Py.split]. by rewrite Hc.
Qed.

Lemma rstrip_blank (s : string) :
  Py.rstrip s = "" → Py.starts_word s = false ∧ Py.split s = [].
Proof.
  induction s as [|c s IH]; [done|].
  cbn [Py.rstrip Py.starts_word Py.split].
  destruct (Py.rstrip s) eqn:Hr; [|done].
  destruct (Py.isspace c); [|done]. intros _. split; [done|]. by apply IH.
Qed.

Lemma starts_word_rstrip (s : string) :
  Py.rstrip s ≠ "" → Py.starts_word (Py.rstrip s) = Py.starts_word s.
Proof.
  destruct s as [|c s]; [done|].
  cbn [Py.rstrip]. destruct (Py.rstrip s); [|done].
  destruct (Py.isspace c) eqn:Hc; [done|]. intros _. simpl. by rewrite Hc.
Qed.

Lemma split_rstrip (s : string) : Py.split (Py.rstrip s) = Py.split s.
Proof.
  induction s as [|c s IH]; [done|].
  cbn [Py.rstrip]. destruct (Py.rstrip s) as [|d r] eqn:Hr.
  - destruct (rstrip_blank s Hr) as [Hw Hs].
    cbn [Py.split]. rewrite Hw, Hs.
    destruct (Py.isspace c) eqn:Hc; [done|]. cbn. by rewrite Hc.
  - assert (Py.rstrip s ≠ "") as Hne by (by rewrite Hr).
    pose proof (starts_word_rstrip s Hne) as Hw. rewrite Hr in Hw.
    change (Py.split (String c (String d r)))
      with (if Py.isspace c then Py.split (String d r)
            else if Py.starts_word (String d r) then
                   match Py.split (String d r) with
                   | [] => [String c ""]
                   | w :: ws => String c w :: ws
                   end
                 else String c "" :: Py.split (String d r)).
    rewrite Hw, IH. done.
Qed.

Lemma split_strip (s : string) : Py.split (Py.strip s) = Py.split s.
Proof. unfold Py.strip. by rewrite split_lstrip, split_rstrip. Qed.

Lemma startswith_extend (p s t : string) :
  Py.startswith p s = true → Py.startswith p (s +:+ t) = true.
Proof.
  revert s. induction p as [|a p IH]; intros [|b s]; simpl; try done.
  rewrite !andb_true_iff. intros [-> ?]. auto.
Qed.

(** The first word of a text that begins with a word character is a
    prefix of the text. *)
Lemma split_first_prefix (s w : string) (ws : list string) :
  Py.starts_word s = true → Py.split s = w :: ws → ∃ t, s = w +:+ t.
Proof.
  revert w ws. induction s as [|c s IH]; intros w ws; [done|].
  cbn [Py.starts_word Py.split]. intros Hc. apply negb_true_iff in Hc. rewrite Hc.
  destruct (Py.starts_word s) eqn:Hs.
  - destruct (Py.split s) as [|w0 ws0] eqn:Hsp.
    + intros [= <- <-]. by exists s.
    + intros [= <- <-]. destruct (IH w0 ws0 eq_refl eq_refl) as [t ->].
      by exists t.
  - intros [= <- <-]. by exists s.
Qed.

Lemma contains_word (sub s w : string) :
  w ∈ Py.split s → Py.contains sub w = true → Py.contains sub s = true.
Proof.
  revert w. induction s as [|c s IH]; intros w; [by intros ?%elem_of_nil|].
  cbn [Py.split]. intros Hin Hw.
  assert (∀ v t, s = v +:+ t → w = String c v →
            Py.contains sub v = true ∨ Py.startswith sub (String c s) = true)
    as Hhead.
  { intros v t -> ->. revert Hw. cbn [Py.contains].
    intros [Hp|Hv]%orb_true_iff; [right|by left].
    by apply (startswith_extend sub (String c v) t). }
  cbn [Py.contains]. apply orb_true_iff.
  destruct (Py.isspace c); [right; by eapply IH|].
  destruct (Py.starts_word s) eqn:Hs.
  - destruct (Py.split s) as [|w0 ws0] eqn:Hsp.
    + apply list_elem_of_singleton in Hin.
      destruct (Hhead "" s eq_refl Hin) as [Hv|Hv]; [|by left].
      destruct sub; [by left|]. simpl in Hv. done.
    + apply elem_of_cons in Hin as [->|Hin].
      * destruct (split_first_prefix s w0 ws0 Hs Hsp) as [t Ht].
        destruct (Hhead w0 t Ht eq_refl) as [Hv|Hv]; [|by left].
        right. apply (IH w0); [|done]. rewrite ?Hsp. left.
      * right. apply (IH w); [|done]. rewrite ?Hsp. by right.
  - apply elem_of_cons in Hin as [->|Hin].
    + destruct (Hhead "" s eq_refl eq_refl) as [Hv|Hv]; [|by left].
      destruct sub; [by left|]. simpl in Hv. done.
    + right. by apply (IH w).
Qed.

(** ** The reading loops *)

Lemma sum_list_app (l1 l2 : list Z) :
  sum_list (l1 ++ l2) = sum_list l1 + sum_list l2.
Proof. unfold sum_list. induction l1 as [|x l1 IH]; simpl; lia. Qed.

Lemma sum_list_cons (x : Z) (l : list Z) : sum_list (x :: l) = x + sum_list l.
Proof. done. Qed.

Lemma short_row_no_length (length_index : nat) (parts : list string) :
  (length parts <=? length_index)%nat = true →
  parts !! length_index ≫= Py.int = None.
Proof.
  intros Hle%Nat.leb_le. by rewrite (lookup_ge_None_2 parts length_index).
Qed.

(** One turn of either loop, in terms of what the line provides. *)
Lemma single_line_eq header length_index st line :
  V3.single_line header length_index st line =
    {| V3.s_read_lengths :=
         V3.s_read_lengths st ++ option_list (accepted_length length_index line);
       V3.s_bases := V3.s_bases st + default 0 (accepted_length length_index line);
       V3.s_flowcell_id :=
         match V3.s_flowcell_id st with
         | Some seen => Some seen
         | None => line_identifier header length_index line
         end |}.
Proof.
  unfold V3.single_line, accepted_length, line_identifier.
  destruct st as [ls b fid]; simpl.
  destruct (V3.repeated_header line); simpl.
  { rewrite app_nil_r, Z.add_0_r. by destruct fid. }
  destruct (length _ <=? length_index)%nat eqn:Hlen.
  { rewrite (short_row_no_length _ _ Hlen). simpl.
    rewrite app_nil_r, Z.add_0_r. by destruct fid. }
  destruct (_ ≫= Py.int) as [n|]; simpl; [done|].
  by rewrite app_nil_r, Z.add_0_r.
Qed.

Lemma aggregated_line_eq header length_index st line :
  V3.aggregated_line header length_index st line =
    {| V3.a_read_lengths :=
         V3.a_read_lengths st ++ option_list (accepted_length length_index line);
       V3.a_bases := V3.a_bases st + default 0 (accepted_length length_index line);
       V3.a_flowcell_ids :=
         match line_identifier header length_index line with
         | Some id =>
             if String.eqb id "" then V3.a_flowcell_ids st
             else {[ id ]} ∪ V3.a_flowcell_ids st
         | None => V3.a_flowcell_ids st
         end;
       V3.a_file_names := V3.a_file_names st;
       V3.a_stderr := V3.a_stderr st |}.
Proof.
  unfold V3.aggregated_line, accepted_length, line_identifier.
  destruct st as [ls b ids names err]; simpl.
  destruct (V3.repeated_header line); simpl.
  { by rewrite app_nil_r, Z.add_0_r. }
  destruct (length _ <=? length_index)%nat eqn:Hlen.
  { rewrite (short_row_no_length _ _ Hlen). simpl.
    by rewrite app_nil_r, Z.add_0_r. }
  destruct (_ ≫= Py.int) as [n|]; simpl; [done|].
  by rewrite app_nil_r, Z.add_0_r.
Qed.

(** The whole loop over the data lines of one file. *)
Lemma single_scan header length_index lines st :
  foldl (V3.single_line header length_index) st lines =
    {| V3.s_read_lengths :=
         V3.s_read_lengths st ++ omap (accepted_length length_index) lines;
       V3.s_bases :=
         V3.s_bases st + sum_list (omap (accepted_length length_index) lines);
       V3.s_flowcell_id :=
         match V3.s_flowcell_id st with
         | Some seen => Some seen
         | None => head (omap (line_identifier header length_index) lines)
         end |}.
Proof.
  revert st. induction lines as [|line lines IH]; intros st.
  { destruct st as [ls b fid]; simpl. rewrite app_nil_r, Z.add_0_r.
    by destruct fid. }
  cbn [foldl]. rewrite IH, single_line_eq. cbn [omap list_omap].
  cbn [V3.s_read_lengths V3.s_bases V3.s_flowcell_id].
  destruct (accepted_length length_index line) as [n|];
    destruct (V3.s_flowcell_id st) as [seen|];
    destruct (line_identifier header length_index line) as [fid|];
    cbn [option_list default head]; rewrite <- ?(assoc_L (++)), ?app_nil_r;
    rewrite ?sum_list_cons; unfold id; f_equal; first [lia | done].
Qed.

Lemma aggregated_scan header length_index lines st :
  foldl (V3.aggregated_line header length_index) st lines =
    {| V3.a_read_lengths :=
         V3.a_read_lengths st ++ omap (accepted_length length_index) lines;
       V3.a_bases :=
         V3.a_bases st + sum_list (omap (accepted_length length_index) lines);
       V3.a_flowcell_ids :=
         V3.a_flowcell_ids st ∪
         list_to_set (filter (λ id, id ≠ "")
                        (omap (line_identifier header length_index) lines));
       V3.a_file_names := V3.a_file_names st;
       V3.a_stderr := V3.a_stderr st |}.
Proof.
  revert st. induction lines as [|line lines IH]; intros st.
  { destruct st as [ls b ids names err]; simpl.
    rewrite app_nil_r, Z.add_0_r. f_equal. set_solver. }
  cbn [foldl]. rewrite IH, aggregated_line_eq. cbn [omap list_omap].
  cbn [V3.a_read_lengths V3.a_bases V3.a_flowcell_ids V3.a_file_names
       V3.a_stderr].
  destruct (accepted_length length_index line) as [n|];
    destruct (line_identifier header length_index line) as [fid|];
    cbn [option_list default]; rewrite <- ?(assoc_L (++)), ?app_nil_r;
    rewrite ?filter_cons; try destruct (String.eqb_spec fid "") as [->|Hid];
    repeat case_decide; try done;
    rewrite ?sum_list_cons; unfold id; f_equal; first [lia | set_solver].
Qed.

(** ** The aggregate as a merge of per-file accumulators *)

Lemma agg_state_eq (a b : V3.agg_state) :
  V3.a_read_lengths a = V3.a_read_lengths b →
  V3.a_bases a = V3.a_bases b →
  V3.a_flowcell_ids a = V3.a_flowcell_ids b →
  V3.a_file_names a = V3.a_file_names b →
  V3.a_stderr a = V3.a_stderr b →
  a = b.
Proof. destruct a, b; simpl; congruence. Qed.

Lemma merge_assoc (a b c : V3.agg_state) :
  merge a (merge b c) = merge (merge a b) c.
Proof.
  apply agg_state_eq; simpl; rewrite ?(assoc_L (++)); try done; [lia|].
  by rewrite (assoc_L (∪)).
Qed.

Lemma merge_init_r (a : V3.agg_state) : merge a V3.agg_init = a.
Proof.
  apply agg_state_eq; simpl; rewrite ?app_nil_r; try done; [lia|].
  by rewrite (right_id_L ∅ (∪)).
Qed.

Lemma merge_init_l (a : V3.agg_state) : merge V3.agg_init a = a.
Proof.
  apply agg_state_eq; simpl; try done. by rewrite (left_id_L ∅ (∪)).
Qed.

(** One turn of the loop over the files merges the accumulator of the
    file into the running one. *)
Lemma aggregated_file_merge fs st inFile :
  V3.aggregated_file fs st inFile = merge st (contribution fs inFile).
Proof.
  unfold V3.aggregated_file, contribution, file_lengths, file_identifiers,
    usable.
  destruct (fs inFile) as [f|]; simpl.
  2: { apply agg_state_eq; simpl; rewrite ?app_nil_r; try done; [lia|].
       by rewrite (right_id_L ∅ (∪)). }
  destruct (Py.index _ _) as [length_index|]; simpl.
  2: { apply agg_state_eq; simpl; rewrite ?app_nil_r; try done; [lia|].
       by rewrite (right_id_L ∅ (∪)). }
  rewrite aggregated_scan. apply agg_state_eq; simpl; rewrite ?app_nil_r; done.
Qed.

Lemma accumulate_from fs st files :
  foldl (V3.aggregated_file fs) st files = merge st (accumulate fs files).
Proof.
  unfold accumulate. revert st.
  induction files as [|f files IH]; intros st; simpl.
  { by rewrite merge_init_r. }
  rewrite IH, (IH (V3.aggregated_file _ _ _)), !aggregated_file_merge.
  by rewrite merge_init_l, merge_assoc.
Qed.

Lemma accumulate_cons fs inFile files :
  accumulate fs (inFile :: files) =
    merge (contribution fs inFile) (accumulate fs files).
Proof.
  unfold accumulate at 1. cbn [foldl].
  by rewrite accumulate_from, aggregated_file_merge, merge_init_l.
Qed.

(** Processing two groups of files one after the other is the merge of
    processing each group. *)
Lemma accumulate_app fs files1 files2 :
  accumulate fs (files1 ++ files2) =
    merge (accumulate fs files1) (accumulate fs files2).
Proof.
  unfold accumulate at 1. rewrite foldl_app.
  fold (accumulate fs files1). apply accumulate_from.
Qed.

(** The running total of bases is the sum of the lengths kept. *)
Lemma accumulate_bases fs files :
  V3.a_bases (accumulate fs files) = sum_list (V3.a_read_lengths (accumulate fs files)).
Proof.
  induction files as [|f files IH]; [done|].
  rewrite accumulate_cons. simpl. by rewrite sum_list_app, IH.
Qed.

(** The order of the files changes the order of the lengths only. *)
Lemma accumulate_perm fs files files' :
  files ≡ₚ files' →
  V3.a_read_lengths (accumulate fs files) ≡ₚ V3.a_read_lengths (accumulate fs files') ∧
  V3.a_bases (accumulate fs files) = V3.a_bases (accumulate fs files') ∧
  V3.a_flowcell_ids (accumulate fs files) = V3.a_flowcell_ids (accumulate fs files').
Proof.
  induction 1 as [|f l l' _ (IHl & IHb & IHi)|f g l|l1 l2 l3 _ IH1 _ IH2].
  - done.
  - rewrite !accumulate_cons. simpl. rewrite IHl, IHb, IHi. done.
  - rewrite !accumulate_cons. simpl. split_and!.
    + rewrite !(assoc_L (++)). f_equiv. apply Permutation_app_comm.
    + lia.
    + rewrite !(assoc_L (∪)). f_equal. apply (comm_L (∪)).
  - destruct IH1 as (? & ? & ?), IH2 as (? & ? & ?).
    split_and!; by etrans.
Qed.

(** ** The statistics block *)

Global Instance desc_trans : Transitive desc.
Proof. unfold desc. intros x y z ??. lia. Qed.
Global Instance desc_antisymm : AntiSymm (=) desc.
Proof. unfold desc. intros x y ??. lia. Qed.
Global Instance desc_total : Total desc.
Proof. unfold desc. intros x y. lia. Qed.

Lemma sort_reverse_sorted (l : list Z) : Sorted desc (sort_reverse l).
Proof. apply (Sorted_merge_sort desc). Qed.

Lemma sort_reverse_perm (l : list Z) : sort_reverse l ≡ₚ l.
Proof. apply (merge_sort_Permutation desc). Qed.

(** The sorted list depends on the lengths as a multiset only. *)
Lemma sort_reverse_order (l l' : list Z) :
  l ≡ₚ l' → sort_reverse l = sort_reverse l'.
Proof.
  intros Hp. apply (Sorted_unique desc); auto using sort_reverse_sorted.
  by rewrite !sort_reverse_perm.
Qed.

Section WithFloat.
Context `{PyFloat F}.

(** The numbers of a row depend on the multiset of lengths, on the
    total, on the bound for whales and on the genome size only. *)
Lemma summarise_numbers whale_bound file1 file2 cell1 cell2 l1 l2 bases
    (size : F) :
  l1 ≡ₚ l2 →
  numbers <$> V3.summarise whale_bound file1 cell1 l1 bases size =
  numbers <$> V3.summarise whale_bound file2 cell2 l2 bases size.
Proof.
  intros Hp. unfold V3.summarise. rewrite (sort_reverse_order l1 l2 Hp).
  unfold py_truediv. by destruct (is_zero size).
Qed.

Lemma summarise_cell whale_bound file cell l bases (size : F) r :
  V3.summarise whale_bound file cell l bases size = Returned r →
  V3.File r = file ∧ V3.flowcell_id r = cell.
Proof.
  unfold V3.summarise, py_truediv. destruct (is_zero size); [done|].
  by intros [= <-].
Qed.
End WithFloat.

(** ** The processing functions in terms of what the inputs provide *)

Section WithFloat.
Context `{PyFloat F}.

Lemma process_single_file_eq fs inFile (size : F) :
  V3.process_single_file fs inFile size =
    match fs inFile, usable fs inFile with
    | None, _ => ([OpenError inFile], Returned None)
    | Some _, None => ([MissingColumn inFile], Returned None)
    | Some _, Some (header, length_index, lines) =>
        match file_lengths fs inFile with
        | [] => ([], Returned None)
        | _ :: _ =>
            ([], Some <$> V3.summarise 1000000 inFile
                   (default "" (head (omap (line_identifier header length_index)
                                        lines)))
                   (file_lengths fs inFile)
                   (sum_list (file_lengths fs inFile)) size)
        end
    end.
Proof.
  unfold V3.process_single_file, file_lengths, usable.
  destruct (fs inFile) as [f|]; simpl; [|done].
  destruct (Py.index _ _) as [length_index|]; simpl; [|done].
  rewrite single_scan. simpl. by rewrite Z.add_0_l.
Qed.

Lemma process_aggregated_files_eq fs files (size : F) :
  V3.process_aggregated_files fs files size =
    let st := accumulate fs files in
    match V3.a_read_lengths st with
    | [] => (V3.a_stderr st, Returned None)
    | _ :: _ =>
        (V3.a_stderr st,
         Some <$> V3.summarise 100000 (Py.join "," (V3.a_file_names st))
                    (Py.join "," (rendered (V3.a_flowcell_ids st)))
                    (V3.a_read_lengths st)
                    (sum_list (V3.a_read_lengths st)) size)
    end.
Proof.
  unfold V3.process_aggregated_files. fold (accumulate fs files).
  by rewrite accumulate_bases.
Qed.

Lemma summarise_N50 whale_bound file cell l (size : F) r :
  V3.summarise whale_bound file cell l (sum_list l) size = Returned r →
  V3.read_N50 r = computed_N50 l.
Proof.
  unfold V3.summarise, py_truediv. destruct (is_zero size); [done|].
  by intros [= <-].
Qed.
End WithFloat.

(** ** The label of a row *)

Lemma second_field_spec (item : string) : V3.second_field item = spec_shorten item.
Proof.
  unfold V3.second_field, spec_shorten.
  by destruct (Py.split_on "/" item) as [|a [|b l]].
Qed.

Lemma transform_shortened (file_field : string) :
  V3.transform_file_field file_field "yes" =
    Py.join "," (map spec_shorten (Py.split_on "," file_field)).
Proof.
  unfold V3.transform_file_field. cbn [String.eqb Ascii.eqb Bool.eqb negb].
  destruct (Py.contains "," file_field) eqn:Hc.
  - f_equal. apply map_ext. intros. apply second_field_spec.
  - rewrite (split_on_absent _ _ Hc). simpl. apply second_field_spec.
Qed.

Lemma transform_unchanged (file_field shortname : string) :
  String.eqb shortname "yes" = false →
  V3.transform_file_field file_field shortname = file_field.
Proof. unfold V3.transform_file_field. by intros ->. Qed.

Lemma output_label_spec (label shortname suffix : string) :
  V3.output_label label shortname suffix =
    spec_label label (String.eqb shortname "yes") suffix.
Proof.
  unfold V3.output_label, spec_label.
  destruct (String.eqb shortname "yes") eqn:Hs.
  - apply String.eqb_eq in Hs as ->. rewrite transform_shortened.
    by destruct suffix.
  - rewrite (transform_unchanged _ _ Hs). by destruct suffix.
Qed.

(** Both scripts carry the same transform. *)
Lemma rna_output_label (label shortname suffix : string) :
  Rna.output_label label shortname suffix = V3.output_label label shortname suffix.
Proof. reflexivity. Qed.

(** C9. The label of an output row is the label transform of the
    specification applied to the file field: with shortening (option
    ["yes"]) every component between commas is replaced by the segment at
    index 1 of its split on ["/"] when there are at least two segments and
    is kept otherwise; with any other option the label is kept; a suffix
    that is not empty is then appended after an underscore. This holds for
    the rows of both scripts, and ["runA/sample1/raw.txt"] becomes
    ["sample1"], with the suffix ["fast"] it becomes ["sample1_fast"]. *)
Theorem label_transform `{PyFloat F} :
  (∀ (row : V3.stats F) (shortname suffix : string),
     V3.File (V3.relabel shortname suffix row) =
       spec_label (V3.File row) (String.eqb shortname "yes") suffix ∧
     numbers (V3.relabel shortname suffix row) = numbers row) ∧
  (∀ (res : Rna.stats F) (shortname suffix : string),
     Rna.Sample (Rna.relabel shortname suffix res) =
       spec_label (Rna.Sample res) (String.eqb shortname "yes") suffix) ∧
  V3.output_label "runA/sample1/raw.txt" "yes" "" = "sample1" ∧
  V3.output_label "runA/sample1/raw.txt" "yes" "fast" = "sample1_fast" ∧
  V3.output_label "runA/sample1/raw.txt" "no" "" = "runA/sample1/raw.txt" ∧
  V3.output_label "runA/sample1/raw.txt" "no" "fast" = "runA/sample1/raw.txt_fast" ∧
  V3.output_label "runA/sample1/raw.txt,runB/sample2/raw.txt,plain" "yes" "fast"
    = "sample1,sample2,plain_fast".
Proof.
  split_and!; try reflexivity.
  - intros row shortname suffix. split; [|done]. apply output_label_spec.
  - intros res shortname suffix. cbn [Rna.relabel Rna.with_sample Rna.Sample].
    rewrite rna_output_label. apply output_label_spec.
Qed.

(** ** N50 *)

Lemma sum_list_perm (l l' : list Z) : l ≡ₚ l' → sum_list l = sum_list l'.
Proof.
  induction 1; rewrite ?sum_list_cons; try done; lia.
Qed.

Lemma sum_list_nonneg (l : list Z) : Forall (λ x, 0 ≤ x) l → 0 ≤ sum_list l.
Proof. induction 1; rewrite ?sum_list_cons; [done|lia]. Qed.

(** The loop stops at the first position where the running sum, counted
    from [cumulative], reaches half of the total, when there is such a
    position. *)
Lemma n50_loop_first_crossing (total : Z) (l : list Z) (cumulative : Z) (k : nat) :
  (k < length l)%nat → total ≤ 2 * (cumulative + running_sum k l) →
  ∃ i, l !! i = Some (n50_loop total cumulative l) ∧
       total ≤ 2 * (cumulative + running_sum i l) ∧
       ∀ j, (j < i)%nat → 2 * (cumulative + running_sum j l) < total.
Proof.
  revert cumulative k. induction l as [|x l IH]; intros cumulative k Hk Hreach.
  { simpl in Hk. lia. }
  cbn [n50_loop]. destruct (total <=? 2 * (cumulative + x)) eqn:Hx.
  - apply Z.leb_le in Hx. exists 0%nat. split_and!; [done| |lia].
    unfold running_sum. simpl. lia.
  - apply Z.leb_gt in Hx. destruct k as [|k].
    { unfold running_sum in Hreach. simpl in Hreach. lia. }
    destruct (IH (cumulative + x) k) as (i & Hi & Hhere & Hbefore).
    { simpl in Hk. lia. }
    { unfold running_sum in *. cbn [take] in Hreach.
      rewrite sum_list_cons in Hreach. lia. }
    exists (S i). split_and!; [done| |].
    + unfold running_sum in *. cbn [take]. rewrite sum_list_cons. lia.
    + intros [|j] Hj.
      * unfold running_sum. simpl. lia.
      * specialize (Hbefore j ltac:(lia)).
        unfold running_sum in *. cbn [take]. rewrite sum_list_cons. lia.
Qed.

(** Without such a position [n50_val] keeps its initial value. *)
Lemma n50_loop_no_crossing (total : Z) (l : list Z) (cumulative : Z) :
  (∀ k, (k < length l)%nat → 2 * (cumulative + running_sum k l) < total) →
  n50_loop total cumulative l = 0.
Proof.
  revert cumulative. induction l as [|x l IH]; intros cumulative Hnone; [done|].
  cbn [n50_loop]. destruct (total <=? 2 * (cumulative + x)) eqn:Hx.
  - apply Z.leb_le in Hx. specialize (Hnone 0%nat ltac:(simpl; lia)).
    unfold running_sum in Hnone. simpl in Hnone. lia.
  - apply IH. intros k Hk. specialize (Hnone (S k) ltac:(simpl; lia)).
    unfold running_sum in *. cbn [take] in Hnone.
    rewrite sum_list_cons in Hnone. lia.
Qed.

Lemma running_sum_last (l : list Z) :
  l ≠ [] → running_sum (length l - 1) l = sum_list l.
Proof.
  intros Hne. unfold running_sum. rewrite take_ge; [done|].
  destruct l; [done|]. simpl. lia.
Qed.

Lemma computed_N50_crossing (lengths : list Z) (k : nat) :
  (k < length lengths)%nat →
  sum_list lengths ≤ 2 * running_sum k (sort_reverse lengths) →
  is_N50 lengths (computed_N50 lengths).
Proof.
  intros Hk Hreach. unfold computed_N50, is_N50.
  pose proof (sort_reverse_perm lengths) as Hp.
  destruct (n50_loop_first_crossing (sum_list lengths) (sort_reverse lengths) 0 k)
    as (i & Hi & Hhere & Hbefore).
  - by rewrite Hp.
  - lia.
  - exists (sort_reverse lengths), i.
    split_and!; [done|apply sort_reverse_sorted| |done].
    split; [lia|]. intros j Hj. specialize (Hbefore j Hj). lia.
Qed.

Lemma computed_N50_correct (lengths : list Z) :
  lengths ≠ [] → Forall (λ x, 0 ≤ x) lengths →
  is_N50 lengths (computed_N50 lengths).
Proof.
  intros Hne Hpos.
  pose proof (sort_reverse_perm lengths) as Hp.
  assert (sort_reverse lengths ≠ []) as Hne'.
  { intros Hnil. rewrite Hnil in Hp. by apply Permutation_nil in Hp. }
  apply (computed_N50_crossing lengths (length lengths - 1)).
  - destruct lengths; [done|]. simpl. lia.
  - rewrite <- (Permutation_length Hp), (running_sum_last _ Hne').
    rewrite (sum_list_perm _ _ Hp). pose proof (sum_list_nonneg _ Hpos). lia.
Qed.



(** ** Buckets *)

Lemma sum_ge_cons (t x : Z) (l : list Z) :
  sum_ge t (x :: l) = (if decide (t ≤ x) then x else 0) + sum_ge t l.
Proof.
  unfold sum_ge. rewrite filter_cons. case_decide; rewrite ?sum_list_cons; lia.
Qed.

Lemma count_ge_cons (t x : Z) (l : list Z) :
  count_ge t (x :: l) = (if decide (t ≤ x) then 1 else 0) + count_ge t l.
Proof.
  unfold count_ge. rewrite filter_cons. case_decide; simpl; lia.
Qed.

Lemma sum_ge_antitone (l : list Z) (t t' : Z) :
  0 ≤ t ∨ Forall (λ x, 0 ≤ x) l → t ≤ t' → sum_ge t' l ≤ sum_ge t l.
Proof.
  intros Hpos Hle. induction l as [|x l IH]; [done|].
  rewrite !sum_ge_cons.
  assert (sum_ge t' l ≤ sum_ge t l) as Hrest.
  { apply IH. destruct Hpos as [?|Hall]; [by left|right]. by inv Hall. }
  assert (t ≤ x → 0 ≤ x) as Hx.
  { intros ?. destruct Hpos as [?|Hall]; [lia|]. by inv Hall. }
  repeat case_decide; lia.
Qed.

Lemma count_ge_antitone (l : list Z) (t t' : Z) :
  t ≤ t' → count_ge t' l ≤ count_ge t l.
Proof.
  intros Hle. induction l as [|x l IH]; [done|].
  rewrite !count_ge_cons. repeat case_decide; lia.
Qed.

(** The number of rows of a frame at or above a quality. *)
Lemma quality_rows_antitone (rows : list Rna.row) (t t' : Q) :
  (t <= t')%Q →
  (length (filter (λ r, Qle_bool t' (Rna.mean_qscore_template r) = true) rows)
   ≤ length (filter (λ r, Qle_bool t (Rna.mean_qscore_template r) = true) rows))%nat.
Proof.
  intros Hle. induction rows as [|r rows IH]; [done|].
  rewrite !filter_cons.
  assert (Qle_bool t' (Rna.mean_qscore_template r) = true →
          Qle_bool t (Rna.mean_qscore_template r) = true) as Himp.
  { rewrite !Qle_bool_iff. intros ?. by eapply Qle_trans. }
  repeat case_decide; simpl; try lia. by destruct Himp.
Qed.

Lemma quality_rows_bound (rows : list Rna.row) (t : Q) :
  (length (filter (λ r, Qle_bool t (Rna.mean_qscore_template r) = true) rows)
   ≤ length rows)%nat.
Proof. apply length_filter. Qed.

Lemma count_quality_antitone (df : Rna.DataFrame) (t t' : Q) (n n' : Z) :
  (t <= t')%Q →
  Rna.count_quality t df = Returned n → Rna.count_quality t' df = Returned n' →
  n' ≤ n ∧ n ≤ Z.of_nat (length (Rna.records df)).
Proof.
  unfold Rna.count_quality. intros Hle.
  destruct (Rna.has_column _ _); [|done]. intros [= <-] [= <-].
  pose proof (quality_rows_antitone (Rna.records df) t t' Hle).
  pose proof (quality_rows_bound (Rna.records df) t). lia.
Qed.

(** The counters of the aggregated loop stay ordered. *)
Lemma aggregated_file_ordered fs t inFile t' :
  ordered_counts t → Rna.aggregated_file fs t inFile = Returned t' →
  ordered_counts t'.
Proof.
  unfold Rna.aggregated_file. intros Ht.
  destruct (fs inFile) as [[|df]|]; try by intros [= <-].
  destruct (Rna.count_quality 5 _) as [q5|] eqn:H5; [|done].
  destruct (Rna.count_quality 10 _) as [q10|] eqn:H10; [|done].
  destruct (Rna.count_quality 15 _) as [q15|] eqn:H15; [|done].
  destruct (Rna.count_quality 20 _) as [q20|] eqn:H20; [|done].
  destruct (Rna.count_quality 25 _) as [q25|] eqn:H25; [|done].
  destruct (Rna.lengths_column _) as [bases|]; [|done].
  intros [= <-]. unfold ordered_counts in *. simpl.
  pose proof (count_quality_antitone _ 5 10 _ _ ltac:(done) H5 H10).
  pose proof (count_quality_antitone _ 10 15 _ _ ltac:(done) H10 H15).
  pose proof (count_quality_antitone _ 15 20 _ _ ltac:(done) H15 H20).
  pose proof (count_quality_antitone _ 20 25 _ _ ltac:(done) H20 H25).
  simpl in *. lia.
Qed.

Lemma aggregated_loop_ordered fs files t t' :
  ordered_counts t → Rna.aggregated_loop fs t files = Returned t' →
  ordered_counts t'.
Proof.
  revert t. induction files as [|f files IH]; intros t Ht; simpl.
  { by intros [= <-]. }
  destruct (Rna.aggregated_file fs t f) as [t1|] eqn:Hf; [|done]. simpl.
  eauto using aggregated_file_ordered.
Qed.

(** C8. Bucket values do not increase with the cutoff: for thresholds
    [t < t'], the sum of the lengths at or above [t] is at least the sum
    of those at or above [t'] (for lengths that are not negative, and for
    any lengths when the cutoff is not negative, as the cutoffs 20000 ..
    100000 of the length variant are), the count of lengths at or above
    [t] is at least the count at or above [t'], and in the quality
    variant the number of rows of quality at least [t] is at least the
    number of quality at least [t']; the five counters of the aggregated
    quality loop are ordered accordingly. *)
Theorem bucket_monotone :
  (∀ (lengths : list Z) (t t' : Z),
     Forall (λ x, 0 ≤ x) lengths → t < t' →
     sum_ge t' lengths ≤ sum_ge t lengths) ∧
  (∀ (lengths : list Z) (t t' : Z),
     0 ≤ t → t < t' → sum_ge t' lengths ≤ sum_ge t lengths) ∧
  (∀ (lengths : list Z) (t t' : Z),
     t < t' → count_ge t' lengths ≤ count_ge t lengths) ∧
  (∀ (df : Rna.DataFrame) (t t' : Q) (n n' : Z),
     (t < t')%Q →
     Rna.count_quality t df = Returned n →
     Rna.count_quality t' df = Returned n' → n' ≤ n) ∧
  (∀ fs file_list t,
     Rna.aggregated_loop fs Rna.totals_init file_list = Returned t →
     Rna.count_q25 t ≤ Rna.count_q20 t ∧ Rna.count_q20 t ≤ Rna.count_q15 t ∧
     Rna.count_q15 t ≤ Rna.count_q10 t ∧ Rna.count_q10 t ≤ Rna.count_q5 t).
Proof.
  split_and!.
  - intros l t t' Hpos Hlt. apply sum_ge_antitone; [by right|lia].
  - intros l t t' Hpos Hlt. apply sum_ge_antitone; [by left|lia].
  - intros l t t' Hlt. apply count_ge_antitone. lia.
  - intros df t t' n n' Hlt Hn Hn'.
    by destruct (count_quality_antitone df t t' n n' (Qlt_le_weak _ _ Hlt) Hn Hn').
  - intros fs files t Ht.
    assert (ordered_counts Rna.totals_init) as Hinit by (by unfold ordered_counts).
    destruct (aggregated_loop_ordered fs files _ t Hinit Ht) as (?&?&?&?&?).
    done.
Qed.

Lemma bucket_monotone_witness :
  sum_ge 40000 [25000; 50000; 70000] ≤ sum_ge 20000 [25000; 50000; 70000].
Proof.
  apply (proj1 bucket_monotone); [|lia]. repeat constructor; lia.
Defined.

(** ** Rows that are dropped *)

Lemma repeated_header_tokens (line : string) :
  spec_repeated_header line = true → V3.repeated_header line = true.
Proof.
  unfold spec_repeated_header, V3.repeated_header.
  rewrite !andb_true_iff, !existsb_exists.
  intros [(w1 & Hw1%list_elem_of_In & Hc1) (w2 & Hw2%list_elem_of_In & Hc2)].
  eauto using contains_word.
Qed.

(** A line that the specification drops adds no length. *)
Lemma skipped_no_length (length_index : nat) (line : string) :
  spec_skipped length_index line = true →
  accepted_length length_index line = None.
Proof.
  unfold spec_skipped, accepted_length. rewrite !orb_true_iff, split_strip.
  intros [[Hh|Hs]|Hi].
  - by rewrite (repeated_header_tokens _ Hh).
  - destruct (V3.repeated_header line); [done|].
    apply Nat.ltb_lt in Hs. rewrite (lookup_ge_None_2 _ length_index); [done|lia].
  - destruct (V3.repeated_header line); [done|].
    unfold spec_not_integer in Hi.
    destruct (Py.split line !! length_index) as [field|]; [|done].
    by apply bool_decide_eq_true in Hi.
Qed.

Lemma omap_filter_none {A B} (f : A → option B) (keep : A → Prop)
    `{∀ x, Decision (keep x)} (l : list A) :
  (∀ x, ¬ keep x → f x = None) → omap f (filter keep l) = omap f l.
Proof.
  intros Hdrop. induction l as [|x l IH]; [done|].
  rewrite filter_cons. case_decide as Hx; cbn [omap list_omap]; rewrite IH; [done|].
  by rewrite (Hdrop x Hx).
Qed.

Lemma usable_without_skipped fs inFile :
  usable (λ name, without_skipped <$> fs name) inFile =
    match usable fs inFile with
    | Some (header, length_index, lines) =>
        Some (header, length_index,
              filter (λ line, spec_skipped length_index line = false) lines)
    | None => None
    end.
Proof.
  unfold usable. destruct (fs inFile) as [[|h lines]|]; simpl; try done.
  unfold readline at 2. simpl.
  destruct (Py.index _ _) as [length_index|] eqn:Hi; simpl.
  - unfold readline. simpl. by rewrite Hi.
  - unfold readline. simpl. by rewrite Hi.
Qed.

Lemma file_lengths_without_skipped fs inFile :
  file_lengths (λ name, without_skipped <$> fs name) inFile = file_lengths fs inFile.
Proof.
  unfold file_lengths. rewrite usable_without_skipped.
  destruct (usable fs inFile) as [[[header length_index] lines]|]; [|done].
  apply omap_filter_none. intros line Hline. apply skipped_no_length.
  by destruct (spec_skipped length_index line).
Qed.

Section WithFloat.
Context `{PyFloat F}.

Lemma returned_numbers_summarise said whale_bound file cell l bases (size : F) :
  returned_numbers (said, Some <$> V3.summarise whale_bound file cell l bases size) =
    Some <$> (numbers <$> V3.summarise whale_bound file cell l bases size).
Proof.
  unfold returned_numbers. simpl. by destruct (V3.summarise _ _ _ _ _ _).
Qed.

Lemma single_file_numbers fs inFile (size : F) :
  returned_numbers (V3.process_single_file fs inFile size) =
    match file_lengths fs inFile with
    | [] => Returned None
    | _ :: _ =>
        Some <$> (numbers <$> V3.summarise 1000000 "" "" (file_lengths fs inFile)
                                (sum_list (file_lengths fs inFile)) size)
    end.
Proof.
  rewrite process_single_file_eq. unfold file_lengths.
  destruct (fs inFile) as [f|] eqn:Hf.
  2: { unfold usable. by rewrite Hf. }
  destruct (usable fs inFile) as [[[header length_index] lines]|]; [|done].
  destruct (omap _ lines) as [|x xs]; [done|].
  rewrite returned_numbers_summarise. f_equal. by apply summarise_numbers.
Qed.

Lemma aggregated_numbers fs files (size : F) :
  returned_numbers (V3.process_aggregated_files fs files size) =
    let lengths := V3.a_read_lengths (accumulate fs files) in
    match lengths with
    | [] => Returned None
    | _ :: _ =>
        Some <$> (numbers <$> V3.summarise 100000 "" "" lengths
                                (sum_list lengths) size)
    end.
Proof.
  rewrite process_aggregated_files_eq. cbn zeta.
  destruct (V3.a_read_lengths _) as [|x xs]; [done|].
  rewrite returned_numbers_summarise. f_equal. by apply summarise_numbers.
Qed.
End WithFloat.

Lemma accumulate_lengths fs files :
  V3.a_read_lengths (accumulate fs files) = concat (file_lengths fs <$> files).
Proof.
  induction files as [|f files IH]; [done|].
  rewrite accumulate_cons. simpl. by rewrite IH.
Qed.

(** C5. A data line whose tokens contain both header markers, a line
    with fewer fields than the index of the length column and a line
    whose field at that index is not an integer add no length; the
    numbers computed from a file are those computed from the same file
    with these lines removed, for one file and in an aggregate, as on the
    example of a summary with a repeated header, a short row and a
    malformed row. *)
Theorem row_tolerance `{PyFloat F} :
  (∀ (length_index : nat) (line : string),
     spec_skipped length_index line = true →
     accepted_length length_index line = None) ∧
  (∀ fs inFile (size : F),
     returned_numbers
       (V3.process_single_file (λ name, without_skipped <$> fs name) inFile size) =
     returned_numbers (V3.process_single_file fs inFile size)) ∧
  (∀ fs files (size : F),
     returned_numbers
       (V3.process_aggregated_files (λ name, without_skipped <$> fs name) files size) =
     returned_numbers (V3.process_aggregated_files fs files size)) ∧
  without_skipped noisy_summary = tidy_summary ∧
  (∀ size : F,
     returned_numbers (V3.process_single_file (one_file "s" noisy_summary) "s" size) =
     returned_numbers (V3.process_single_file (one_file "s" tidy_summary) "s" size)).
Proof.
  split_and!.
  - apply skipped_no_length.
  - intros fs inFile size.
    by rewrite !single_file_numbers, file_lengths_without_skipped.
  - intros fs files size. rewrite !aggregated_numbers, !accumulate_lengths.
    assert (file_lengths (λ name, without_skipped <$> fs name) <$> files
            = file_lengths fs <$> files) as ->; [|done].
    apply list_fmap_ext. intros _ f _. apply file_lengths_without_skipped.
  - reflexivity.
  - intros size. by rewrite !single_file_numbers.
Qed.

Lemma row_tolerance_witness :
  accepted_length 2 ("FC1_b.fast5 r3 n/a" +:+ newline) = None.
Proof. apply (proj1 (row_tolerance (F:=Q))). reflexivity. Defined.

(** ** Identifiers *)

Lemma accumulate_identifiers fs files (id : string) :
  id ∈ V3.a_flowcell_ids (accumulate fs files) ↔
  ∃ inFile, inFile ∈ files ∧ id ∈ file_identifiers fs inFile.
Proof.
  induction files as [|f files IH].
  { unfold accumulate. simpl. split; [set_solver|]. by intros (? & ?%elem_of_nil & _). }
  rewrite accumulate_cons. cbn [merge contribution V3.a_flowcell_ids].
  rewrite elem_of_union, IH, elem_of_list_to_set. split.
  - intros [?|(g & ? & ?)]; [exists f|exists g]; split; try done.
    + by left.
    + by right.
  - intros (g & [->|?]%elem_of_cons & ?); [by left|right; by exists g].
Qed.

(** The identifiers of a file are those of the lines that reach the
    extraction and give an identifier that is not empty. *)
Lemma file_identifiers_line fs inFile header length_index lines line id :
  usable fs inFile = Some (header, length_index, lines) →
  line ∈ lines →
  line_identifier header length_index line = Some id → id ≠ "" →
  id ∈ file_identifiers fs inFile.
Proof.
  intros Hu Hline Hid Hne. unfold file_identifiers. rewrite Hu.
  apply list_elem_of_filter. split; [done|].
  apply list_elem_of_omap. by exists line.
Qed.

(** C10. In the length-bucket variant a row that is not a repeated
    header and has enough fields to reach the length column has its
    identifier extracted before its length is validated: when the length
    field is not an integer the row adds nothing to the lengths and to
    the bases, yet its identifier, if not empty, joins the identifiers of
    the aggregate, and it becomes the identifier of the file when no
    earlier row has reached the extraction. *)
Theorem identifier_before_validation `{PyFloat F}
    (header : list string) (length_index : nat) (line : string) :
  V3.repeated_header line = false →
  (length_index < length (Py.split (Py.strip line)))%nat →
  Py.split (Py.strip line) !! length_index ≫= Py.int = None →
  let id := V3.extract_flowcell_id header (Py.split (Py.strip line)) in
  (∀ st : V3.agg_state,
     let st' := V3.aggregated_line header length_index st line in
     V3.a_read_lengths st' = V3.a_read_lengths st ∧
     V3.a_bases st' = V3.a_bases st ∧
     V3.a_flowcell_ids st' =
       (if String.eqb id "" then V3.a_flowcell_ids st
        else {[ id ]} ∪ V3.a_flowcell_ids st)) ∧
  (∀ st : V3.single_state,
     let st' := V3.single_line header length_index st line in
     V3.s_read_lengths st' = V3.s_read_lengths st ∧
     V3.s_bases st' = V3.s_bases st ∧
     (V3.s_flowcell_id st = None → V3.s_flowcell_id st' = Some id)) ∧
  (∀ fs files inFile lines,
     inFile ∈ files →
     usable fs inFile = Some (header, length_index, lines) →
     line ∈ lines → id ≠ "" →
     id ∈ V3.a_flowcell_ids (accumulate fs files)) ∧
  (∀ fs inFile before after (size : F) said r,
     usable fs inFile = Some (header, length_index, before ++ line :: after) →
     (∀ earlier, earlier ∈ before →
        line_identifier header length_index earlier = None) →
     V3.process_single_file fs inFile size = (said, Returned (Some r)) →
     V3.flowcell_id r = id ∧
     file_lengths fs inFile =
       omap (accepted_length length_index) (before ++ after)).
Proof.
  intros Hhead Hlen Hint id.
  assert (accepted_length length_index line = None) as Hacc.
  { unfold accepted_length. by rewrite Hhead. }
  assert (line_identifier header length_index line = Some id) as Hid.
  { unfold line_identifier. rewrite Hhead. cbn zeta.
    by rewrite (proj2 (Nat.leb_gt _ _) Hlen). }
  split_and!.
  - intros st. cbn zeta. rewrite aggregated_line_eq, Hacc, Hid. simpl.
    rewrite app_nil_r. split_and!; [done|lia|done].
  - intros st. cbn zeta. rewrite single_line_eq, Hacc, Hid. simpl.
    rewrite app_nil_r. split_and!; [done|lia|]. by intros ->.
  - intros fs files inFile lines Hin Hu Hline Hne.
    apply accumulate_identifiers. exists inFile. split; [done|].
    by eapply file_identifiers_line.
  - intros fs inFile before after size said r Hu Hbefore.
    rewrite process_single_file_eq. unfold file_lengths. rewrite Hu.
    destruct (fs inFile); [|done].
    assert (omap (accepted_length length_index) (before ++ line :: after)
            = omap (accepted_length length_index) (before ++ after)) as ->.
    { rewrite !omap_app. cbn [omap list_omap]. by rewrite Hacc. }
    assert (head (omap (line_identifier header length_index)
                    (before ++ line :: after)) = Some id) as ->.
    { rewrite omap_app. cbn [omap list_omap]. rewrite Hid.
      assert (omap (line_identifier header length_index) before = []) as ->; [|done].
      clear -Hbefore. induction before as [|b before IH]; [done|].
      cbn [omap list_omap]. rewrite (Hbefore b) by left.
      apply IH. intros ??. apply Hbefore. by right. }
    destruct (omap _ (before ++ after)) as [|x xs]; [done|].
    intros [= <- Hr]. split; [|done].
    destruct (V3.summarise _ _ _ _ _ _) as [r'|] eqn:Hs; [|done].
    injection Hr as <-. by destruct (summarise_cell _ _ _ _ _ _ _ Hs).
Qed.

Lemma identifier_before_validation_witness :
  V3.a_read_lengths
    (V3.aggregated_line ["filename"; "read_id"; "sequence_length_template"] 2
       V3.agg_init "FC9_c.fast5 r3 n/a") = [] ∧
  V3.a_flowcell_ids
    (V3.aggregated_line ["filename"; "read_id"; "sequence_length_template"] 2
       V3.agg_init "FC9_c.fast5 r3 n/a") = {[ "FC9" ]} ∪ ∅.
Proof.
  destruct (identifier_before_validation (F:=Q)
              ["filename"; "read_id"; "sequence_length_template"] 2
              "FC9_c.fast5 r3 n/a") as (Hagg & _).
  - reflexivity.
  - simpl. lia.
  - reflexivity.
  - destruct (Hagg V3.agg_init) as (Hl & _ & Hi). split; [exact Hl|exact Hi].
Defined.

(** ** The identifiers of an aggregate *)

Lemma rendered_sorted (ids : gset string) : Sorted String.le (rendered ids).
Proof. apply (Sorted_merge_sort String.le). Qed.

Lemma rendered_perm (ids : gset string) : rendered ids ≡ₚ elements ids.
Proof. apply (merge_sort_Permutation String.le). Qed.

Lemma rendered_NoDup (ids : gset string) : NoDup (rendered ids).
Proof. rewrite rendered_perm. apply NoDup_elements. Qed.

Lemma elem_of_rendered (ids : gset string) (id : string) :
  id ∈ rendered ids ↔ id ∈ ids.
Proof. by rewrite rendered_perm, elem_of_elements. Qed.

Lemma length_rendered (ids : gset string) : length (rendered ids) = size ids.
Proof. by rewrite rendered_perm. Qed.

Lemma lengths_empty_perm (l l' : list Z) : l ≡ₚ l' → l = [] → l' = [].
Proof. intros Hp ->. by apply Permutation_nil in Hp. Qed.

Section WithFloat.
Context `{PyFloat F}.

Lemma aggregated_cell fs files (size : F) :
  returned_cell (V3.process_aggregated_files fs files size) =
    match V3.a_read_lengths (accumulate fs files) with
    | [] => Returned None
    | _ :: _ =>
        if is_zero size then Raised ZeroDivisionError
        else Returned (Some (Py.join ","
               (rendered (V3.a_flowcell_ids (accumulate fs files)))))
    end.
Proof.
  rewrite process_aggregated_files_eq. cbn zeta.
  destruct (V3.a_read_lengths _) as [|x xs]; [done|].
  unfold returned_cell, V3.summarise, py_truediv. simpl.
  by destruct (is_zero size).
Qed.

(** The order of the files changes no number and no identifier of the
    row of an aggregate. *)
Lemma aggregated_order fs files files' (size : F) :
  files ≡ₚ files' →
  returned_numbers (V3.process_aggregated_files fs files size) =
    returned_numbers (V3.process_aggregated_files fs files' size) ∧
  returned_cell (V3.process_aggregated_files fs files size) =
    returned_cell (V3.process_aggregated_files fs files' size).
Proof.
  intros Hp. destruct (accumulate_perm fs files files' Hp) as (Hl & Hb & Hi).
  rewrite !aggregated_numbers, !aggregated_cell, Hi. cbn zeta.
  destruct (V3.a_read_lengths (accumulate fs files)) as [|x xs] eqn:Hx;
    destruct (V3.a_read_lengths (accumulate fs files')) as [|y ys] eqn:Hy.
  - done.
  - by apply Permutation_nil in Hl.
  - symmetry in Hl. by apply Permutation_nil in Hl.
  - split; [|done]. f_equal. rewrite (sum_list_perm _ _ Hl).
    by apply summarise_numbers.
Qed.
End WithFloat.



(** ** The identifier of a single file *)

Lemma no_identifier_no_length header length_index line :
  line_identifier header length_index line = None →
  accepted_length length_index line = None.
Proof.
  unfold line_identifier, accepted_length.
  destruct (V3.repeated_header line); [done|]. cbn zeta.
  destruct (length _ <=? length_index)%nat eqn:Hlen; [|done].
  intros _. by apply short_row_no_length.
Qed.

Lemma head_omap_first {A B} (f : A → option B) (l : list A) (y : B) :
  head (omap f l) = Some y →
  ∃ before x after,
    l = before ++ x :: after ∧ (∀ e, e ∈ before → f e = None) ∧ f x = Some y.
Proof.
  induction l as [|a l IH]; [done|]. cbn [omap list_omap].
  destruct (f a) as [b|] eqn:Ha.
  - intros [= <-]. exists [], a, l. split_and!; [done| |done].
    by intros e ?%elem_of_nil.
  - intros (before & x & after & -> & Hbefore & Hx)%IH.
    exists (a :: before), x, after. split_and!; [done| |done].
    intros e [->|?]%elem_of_cons; auto.
Qed.

Lemma first_identifier_exists header length_index lines :
  omap (accepted_length length_index) lines ≠ [] →
  is_Some (head (omap (line_identifier header length_index) lines)).
Proof.
  induction lines as [|line lines IH]; [done|]. cbn [omap list_omap].
  destruct (line_identifier header length_index line) as [id|] eqn:Hid; [by eexists|].
  rewrite (no_identifier_no_length _ _ _ Hid). apply IH.
Qed.

(** The claim C7 as stated does not hold: the row of the first file of
    [two_runs] carries [FC2] alone, though [FC3] is met in the file too. *)
Lemma per_file_full_identifier_set_fails : ¬ per_file_full_identifier_set Q.
Proof.
  intros Hclaim.
  assert (∃ r, V3.process_single_file two_runs "runA/s1/summary.txt" human
               = ([], Returned (Some r)) ∧ V3.flowcell_id r = "FC2")
    as (r & Hr & Hcell).
  { eexists. split; [vm_compute; reflexivity|reflexivity]. }
  pose proof (Hclaim _ _ _ _ _ "FC3" Hr) as Hc. rewrite Hcell in Hc.
  assert (Py.contains "FC3" "FC2" = true) as Hno; [|done].
  apply Hc. vm_compute. set_solver.
Qed.

(** C7, amended. The row that the per-file function returns carries one
    identifier: the one extracted from the first data line that is not a
    repeated header and reaches the length column (empty when nothing can
    be extracted from that line); the lines before it provide none, and
    the identifiers of the lines after it are not recorded. *)
Theorem per_file_first_identifier `{PyFloat F} fs inFile (size : F) said r :
  V3.process_single_file fs inFile size = (said, Returned (Some r)) →
  ∃ header length_index before line after,
    usable fs inFile = Some (header, length_index, before ++ line :: after) ∧
    (∀ earlier, earlier ∈ before →
       line_identifier header length_index earlier = None) ∧
    line_identifier header length_index line = Some (V3.flowcell_id r).
Proof.
  rewrite process_single_file_eq. unfold file_lengths.
  destruct (fs inFile); [|done].
  destruct (usable fs inFile) as [[[header length_index] lines]|]; [|done].
  destruct (omap (accepted_length length_index) lines) as [|x xs] eqn:Hl; [done|].
  destruct (first_identifier_exists header length_index lines) as [id Hid].
  { by rewrite Hl. }
  rewrite Hid. intros [= <- Hr].
  destruct (V3.summarise _ _ _ _ _ _) as [r'|] eqn:Hs; [|done].
  injection Hr as <-. destruct (summarise_cell _ _ _ _ _ _ _ Hs) as [_ ->].
  destruct (head_omap_first _ _ _ Hid) as (before & line & after & -> & ? & ?).
  by exists header, length_index, before, line, after.
Qed.

Lemma per_file_first_identifier_witness :
  ∃ header length_index before line after,
    usable two_runs "runA/s1/summary.txt" =
      Some (header, length_index, before ++ line :: after) ∧
    (∀ earlier, earlier ∈ before →
       line_identifier header length_index earlier = None) ∧
    line_identifier header length_index line = Some "FC2".
Proof.
  apply (per_file_first_identifier (F:=Q) two_runs "runA/s1/summary.txt" human []
           {| V3.File := "runA/s1/summary.txt"; V3.flowcell_id := "FC2";
              V3.read_N50 := 1000;
              V3.Gb := exact_round2 (inject_Z 1500 / inject_Z 1000000000);
              V3.coverage := exact_round2 (inject_Z 1500 / human);
              V3.lt20 := exact_round2 (inject_Z 0 / human);
              V3.lt40 := exact_round2 (inject_Z 0 / human);
              V3.lt60 := exact_round2 (inject_Z 0 / human);
              V3.lt80 := exact_round2 (inject_Z 0 / human);
              V3.lt100 := exact_round2 (inject_Z 0 / human);
              V3.whales := 0 |}).
  reflexivity.
Defined.

(** ** Inputs without the length column *)

Section WithFloat.
Context `{PyFloat F}.

(** A file for which [process_single_file] returns [None] leaves the
    rows of directory mode as they are without it. *)
Lemma directory_mode_skip fs before inFile after (size : F) shortname suffix said :
  V3.process_single_file fs inFile size = (said, Returned None) →
  V3.rows (V3.directory_mode fs (before ++ inFile :: after) size shortname suffix) =
    V3.rows (V3.directory_mode fs (before ++ after) size shortname suffix) ∧
  V3.ending (V3.directory_mode fs (before ++ inFile :: after) size shortname suffix) =
    V3.ending (V3.directory_mode fs (before ++ after) size shortname suffix).
Proof.
  intros Hskip. induction before as [|b before [IHr IHe]]; simpl.
  - by rewrite Hskip.
  - destruct (V3.process_single_file fs b size) as [told [[row|]|e]]; simpl;
      by rewrite ?IHr, ?IHe.
Qed.

Lemma contribution_lacking fs inFile :
  lacks_length_column fs inFile →
  contribution fs inFile =
    {| V3.a_read_lengths := []; V3.a_bases := 0; V3.a_flowcell_ids := ∅;
       V3.a_file_names := [inFile]; V3.a_stderr := [MissingColumn inFile] |}.
Proof.
  intros [[f Hf] Hu]. unfold contribution, file_lengths, file_identifiers.
  by rewrite Hu, Hf.
Qed.
End WithFloat.

(** The claim C4 as stated does not hold for an aggregate: the name of
    the file without the column is part of the label of the row. *)
Lemma missing_column_contributes_nothing_fails :
  ¬ missing_column_contributes_nothing Q.
Proof.
  intros Hclaim.
  specialize (Hclaim mixed_batch [] "bad.txt" ["good.txt"] human "no" "").
  assert (lacks_length_column mixed_batch "bad.txt") as Hbad.
  { split; [by eexists|reflexivity]. }
  specialize (Hclaim Hbad). vm_compute in Hclaim. discriminate Hclaim.
Qed.

(** C4, amended. In the length-bucket variant an input whose header
    lacks the length column is reported as such and provides no length, no
    base and no identifier, and the inputs after it are processed: alone
    it gives no row; in directory mode the rows written are those written
    without it; in an aggregate the numbers and the identifiers of the row
    are those of the aggregate without it, while its name is still listed
    among the file names of the label. *)
Theorem missing_column_skipped `{PyFloat F} fs inFile :
  lacks_length_column fs inFile →
  (∀ size : F,
     V3.process_single_file fs inFile size = ([MissingColumn inFile], Returned None)) ∧
  (∀ st, V3.aggregated_file fs st inFile =
           V3.report (MissingColumn inFile) (V3.name_file inFile st)) ∧
  (∀ before after (size : F) shortname suffix,
     V3.rows (V3.directory_mode fs (before ++ inFile :: after) size shortname suffix) =
       V3.rows (V3.directory_mode fs (before ++ after) size shortname suffix) ∧
     V3.ending (V3.directory_mode fs (before ++ inFile :: after) size shortname suffix) =
       V3.ending (V3.directory_mode fs (before ++ after) size shortname suffix)) ∧
  (∀ before after (size : F),
     returned_numbers (V3.process_aggregated_files fs (before ++ inFile :: after) size) =
       returned_numbers (V3.process_aggregated_files fs (before ++ after) size) ∧
     returned_cell (V3.process_aggregated_files fs (before ++ inFile :: after) size) =
       returned_cell (V3.process_aggregated_files fs (before ++ after) size) ∧
     V3.a_file_names (accumulate fs (before ++ inFile :: after)) =
       V3.a_file_names (accumulate fs before) ++
       inFile :: V3.a_file_names (accumulate fs after)).
Proof.
  intros Hlack.
  assert (∀ size : F, V3.process_single_file fs inFile size
                      = ([MissingColumn inFile], Returned None)) as Hsingle.
  { intros size. rewrite process_single_file_eq.
    destruct Hlack as [[f ->] ->]. done. }
  split_and!; [done| | |].
  - intros st. rewrite aggregated_file_merge, (contribution_lacking _ _ Hlack).
    apply agg_state_eq; simpl; rewrite ?app_nil_r; try done; [lia|].
    by rewrite (right_id_L ∅ (∪)).
  - intros before after size shortname suffix.
    by eapply directory_mode_skip.
  - intros before after size.
    assert (V3.a_read_lengths (accumulate fs (before ++ inFile :: after))
            = V3.a_read_lengths (accumulate fs (before ++ after))) as Hl.
    { rewrite !accumulate_app, accumulate_cons, (contribution_lacking _ _ Hlack).
      done. }
    assert (V3.a_flowcell_ids (accumulate fs (before ++ inFile :: after))
            = V3.a_flowcell_ids (accumulate fs (before ++ after))) as Hi.
    { rewrite !accumulate_app, accumulate_cons, (contribution_lacking _ _ Hlack).
      simpl. by rewrite (left_id_L ∅ (∪)). }
    rewrite !aggregated_numbers, !aggregated_cell, Hl, Hi.
    split_and!; [done|done|].
    by rewrite !accumulate_app, accumulate_cons, (contribution_lacking _ _ Hlack).
Qed.

Lemma missing_column_skipped_witness :
  V3.process_single_file mixed_batch "bad.txt" human
    = ([MissingColumn "bad.txt"], Returned None).
Proof.
  apply (missing_column_skipped (F:=Q) mixed_batch "bad.txt").
  split; [by eexists|reflexivity].
Defined.

(** In the quality variant a frame without one of the two columns makes
    [process_rna_file] raise [KeyError], which nothing catches: directory
    mode ends there and writes no row. *)
Lemma rna_missing_column_raises `{PyFloat F} fs inFile df :
  fs inFile = Some (Rna.Parsed df) →
  "sequence_length_template" ∉ Rna.columns df →
  (∃ column, Rna.process_rna_file (F:=F) fs inFile = ([], Raised (KeyError column))) ∧
  (∃ column, ∀ after shortname suffix,
     Rna.directory_mode (F:=F) fs (inFile :: after) shortname suffix =
       {| Rna.rows := []; Rna.messages := []; Rna.ending := Raised (KeyError column) |}).
Proof.
  intros Hfs Hcol.
  assert (∃ column, Rna.process_rna_file (F:=F) fs inFile = ([], Raised (KeyError column)))
    as [column Hraise].
  { unfold Rna.process_rna_file. rewrite Hfs.
    unfold Rna.count_quality, Rna.lengths_column.
    destruct (Rna.has_column "mean_qscore_template" _); [|by eexists].
    assert (Rna.has_column "sequence_length_template" (Rna.drop df) = false) as ->;
      [|by eexists].
    apply bool_decide_eq_false. simpl. rewrite list_elem_of_filter. tauto. }
  split; exists column; [done|].
  intros after shortname suffix. unfold Rna.directory_mode. simpl.
  by rewrite Hraise.
Qed.

(** ** Inputs without valid records *)

(** The three guarded paths: no accepted length, or no read, gives no
    row, and nothing is divided (a zero genome size raises nothing). *)
Lemma guarded_paths_no_result `{PyFloat F} :
  (∀ fs inFile (size : F),
     file_lengths fs inFile = [] →
     snd (V3.process_single_file fs inFile size) = Returned None) ∧
  (∀ fs files (size : F),
     V3.a_read_lengths (accumulate fs files) = [] →
     snd (V3.process_aggregated_files fs files size) = Returned None) ∧
  (∀ fs file_list t,
     Rna.aggregated_loop fs Rna.totals_init file_list = Returned t →
     Rna.total_reads t = 0 →
     Rna.process_aggregated_rna_files (F:=F) fs file_list = Returned (Rna.said t, None)).
Proof.
  split_and!.
  - intros fs inFile size Hl. rewrite process_single_file_eq, Hl.
    destruct (fs inFile); [|done]. by destruct (usable fs inFile) as [[[??]?]|].
  - intros fs files size Hl. rewrite process_aggregated_files_eq. cbn zeta.
    by rewrite Hl.
  - intros fs files t Ht H0. unfold Rna.process_aggregated_rna_files.
    rewrite Ht. simpl. by rewrite H0.
Qed.

(** C3, at the input where the code departs from it: a summary of the
    quality variant with a header and no row. The per-file function
    returns a row of zeros, which directory mode writes; the aggregated
    function, on the same input, returns no row. *)
Theorem rna_file_without_records `{PyFloat F} :
  Rna.process_rna_file (F:=F) header_only "run/s1/sequencing_summary.txt" =
    ([], Returned (Some
       {| Rna.Sample := "run/s1/sequencing_summary.txt";
          Rna.total_Gbp := round2 (truediv 0 f1e9);
          Rna.N50 := 0;
          Rna.total_reads_M := truediv 0 f1e6;
          Rna.q5_reads_M := round2 (truediv 0 f1e6);
          Rna.q10_reads_M := round2 (truediv 0 f1e6);
          Rna.q15_reads_M := round2 (truediv 0 f1e6);
          Rna.q20_reads_M := round2 (truediv 0 f1e6);
          Rna.q25_reads_M := round2 (truediv 0 f1e6) |})) ∧
  length (Rna.rows (Rna.directory_mode (F:=F) header_only
                      ["run/s1/sequencing_summary.txt"] "yes" "fast")) = 1%nat ∧
  Rna.process_aggregated_rna_files (F:=F) header_only
    ["run/s1/sequencing_summary.txt"] = Returned ([], None).
Proof. split_and!; reflexivity. Qed.

(** ** One stream and an aggregate *)

Section WithFloat.
Context `{PyFloat F}.

(** Apart from the count of very long reads, the row of a file
    processed on its own and the row of the aggregate of that file
    alone carry the same numbers. *)
Lemma single_and_aggregate_agree fs inFile (size : F) :
  fmap (M:=outcome) (fmap (M:=option) numbers_but_whales)
    (snd (V3.process_single_file fs inFile size)) =
  fmap (M:=outcome) (fmap (M:=option) numbers_but_whales)
    (snd (V3.process_aggregated_files fs [inFile] size)).
Proof.
  rewrite process_single_file_eq, process_aggregated_files_eq. cbn zeta.
  rewrite accumulate_lengths. simpl. rewrite app_nil_r.
  unfold file_lengths.
  destruct (fs inFile) as [f|] eqn:Hf.
  2: { unfold usable. by rewrite Hf. }
  destruct (usable fs inFile) as [[[header length_index] lines]|]; [|done].
  destruct (omap _ lines) as [|x xs]; [done|].
  unfold V3.summarise, py_truediv. simpl. by destruct (is_zero size).
Qed.
End WithFloat.

(** C1, at the input where the code departs from it: a summary with one
    read of 150 kb. Processed as one stream by the per-file function it
    has no very long read (bound 1000000); processed as an aggregate of
    that one file it has one (bound 100000). All other numbers agree. *)
Theorem whale_bound_mismatch `{PyFloat F} (size : F) :
  is_zero size = false →
  ∃ r r',
    V3.process_single_file long_read "run/s1/summary.txt" size
      = ([], Returned (Some r)) ∧
    V3.process_aggregated_files long_read ["run/s1/summary.txt"] size
      = ([], Returned (Some r')) ∧
    V3.whales r = 0 ∧ V3.whales r' = 1 ∧
    numbers_but_whales r = numbers_but_whales r'.
Proof.
  intros Hsize. eexists _, _. split_and!.
  - unfold V3.process_single_file. simpl. unfold V3.summarise, py_truediv.
    rewrite Hsize. reflexivity.
  - rewrite process_aggregated_files_eq.
    assert (accumulate long_read ["run/s1/summary.txt"] =
            {| V3.a_read_lengths := [150000]; V3.a_bases := 150000;
               V3.a_flowcell_ids := {[ "FC1" ]} ∪ ∅;
               V3.a_file_names := ["run/s1/summary.txt"]; V3.a_stderr := [] |})
      as -> by reflexivity.
    cbn zeta. unfold V3.summarise, py_truediv. simpl. rewrite Hsize. reflexivity.
  - reflexivity.
  - reflexivity.
  - reflexivity.
Qed.

Lemma whale_bound_mismatch_witness :
  ∃ r r',
    V3.process_single_file long_read "run/s1/summary.txt" human
      = ([], Returned (Some r)) ∧
    V3.process_aggregated_files long_read ["run/s1/summary.txt"] human
      = ([], Returned (Some r')) ∧
    V3.whales r = 0 ∧ V3.whales r' = 1 ∧
    numbers_but_whales r = numbers_but_whales r'.
Proof. apply (whale_bound_mismatch (F:=Q) human). reflexivity. Defined.

(** ** More on the pieces of a split *)

Lemma contains_sep_cons (sep c : ascii) (s : string) :
  Py.contains (String sep "") (String c s) =
    Ascii.eqb sep c || Py.contains (String sep "") s.
Proof. cbn [Py.contains]. by rewrite startswith_sep_head. Qed.

(** No piece of [s.split(sep)] holds the separator. *)
Lemma split_on_pieces (sep : ascii) (s : string) :
  Forall (λ piece, Py.contains (String sep "") piece = false) (Py.split_on sep s).
Proof.
  induction s as [|c s IH]; cbn [Py.split_on].
  { by repeat constructor. }
  destruct (Ascii.eqb c sep) eqn:Hc.
  { constructor; [done|exact IH]. }
  destruct (Py.split_on sep s) as [|piece pieces].
  { repeat constructor. rewrite contains_sep_cons, Ascii.eqb_sym, Hc. done. }
  inv IH. constructor; [|done].
  rewrite contains_sep_cons, Ascii.eqb_sym, Hc. done.
Qed.

(** [sep.join(s.split(sep)) == s] *)
Lemma join_split_on (sep : ascii) (s : string) :
  Py.join (String sep "") (Py.split_on sep s) = s.
Proof.
  induction s as [|c s IH]; [done|]. cbn [Py.split_on].
  destruct (Ascii.eqb_spec c sep) as [->|Hc].
  - cbn [Py.join]. destruct (Py.split_on sep s) as [|piece pieces] eqn:Hs.
    { by destruct s. }
    rewrite IH. done.
  - destruct (Py.split_on sep s) as [|piece pieces] eqn:Hs.
    { by destruct s. }
    rewrite <- IH. by destruct pieces.
Qed.

(** The first piece of a split is what comes before the first separator. *)
Lemma split_on_first (sep : ascii) (s : string) :
  ∃ first rest,
    Py.split_on sep s = first :: rest ∧
    (s = first ∨ ∃ after, s = first +:+ String sep after).
Proof.
  destruct (Py.split_on sep s) as [|first rest] eqn:Hs.
  { by destruct s; simpl in Hs; repeat case_match. }
  exists first, rest. split; [done|].
  pose proof (join_split_on sep s) as Hj. rewrite Hs in Hj.
  destruct rest as [|second rest]; [by left|right].
  exists (Py.join (String sep "") (second :: rest)). by rewrite <- Hj.
Qed.

(** ** The identifier of a row *)

Lemma flowcell_id_parts (header parts : list string) :
  let id := V3.extract_flowcell_id header parts in
  Py.contains "_" id = false ∧
  (id ≠ "" →
   ∃ idx field,
     (Py.index "filename_pod5" header = Some idx ∨
      Py.index "filename_pod5" header = None ∧
      Py.index "filename" header = Some idx) ∧
     parts !! idx = Some field ∧
     (field = id ∨ ∃ after, field = id +:+ String "_" after)).
Proof.
  cbn zeta. unfold V3.extract_flowcell_id.
  set (found := match Py.index "filename_pod5" header with
                | Some idx => Some idx
                | None => Py.index "filename" header
                end).
  assert (∀ idx, found = Some idx →
            Py.index "filename_pod5" header = Some idx ∨
            Py.index "filename_pod5" header = None ∧
            Py.index "filename" header = Some idx) as Hfound.
  { unfold found. intros idx. destruct (Py.index "filename_pod5" header); eauto. }
  destruct found as [idx|]; [|done].
  destruct (parts !! idx) as [field|] eqn:Hfield; [|done].
  destruct (split_on_first "_" field) as (first & rest & Hs & Hshape).
  pose proof (split_on_pieces "_" field) as Hpieces.
  rewrite Hs in Hpieces |- *. inv Hpieces. simpl. split; [done|].
  intros _. exists idx, field. split_and!; [by apply Hfound|done|done].
Qed.


(** X1. The identifier that [extract_flowcell_id] returns never holds an
    underscore. When it is not empty it is the part before the first
    underscore of the field of the row in the column that the header
    selects: the column [filename_pod5] when the header has it, the column
    [filename] otherwise. *)
Theorem flowcell_id_shape (header parts : list string) :
  let id := V3.extract_flowcell_id header parts in
  Py.contains "_" id = false ∧
  (id ≠ "" →
   ∃ idx field,
     (Py.index "filename_pod5" header = Some idx ∨
      Py.index "filename_pod5" header = None ∧
      Py.index "filename" header = Some idx) ∧
     parts !! idx = Some field ∧
     (field = id ∨ ∃ after, field = id +:+ String "_" after)).
Proof. apply flowcell_id_parts. Qed.

Lemma flowcell_id_shape_witness :
  ∃ idx field,
    (Py.index "filename_pod5" ["read_id"; "filename_pod5"] = Some idx ∨
     Py.index "filename_pod5" ["read_id"; "filename_pod5"] = None ∧
     Py.index "filename" ["read_id"; "filename_pod5"] = Some idx) ∧
    ["r1"; "FC1_b.pod5"] !! idx = Some field ∧
    (field = "FC1" ∨ ∃ after, field = "FC1" +:+ String "_" after).
Proof.
  apply (flowcell_id_shape ["read_id"; "filename_pod5"] ["r1"; "FC1_b.pod5"]).
  discriminate.
Defined.

(** X2. The choice between the two columns is made on the header alone:
    when the header has the column [filename_pod5] and a row is too short
    to reach it, the row has no identifier, whether or not the header also
    has a column [filename] that the row does reach. *)
Theorem flowcell_column_priority (header parts : list string) (idx : nat) :
  Py.index "filename_pod5" header = Some idx →
  (length parts ≤ idx)%nat →
  V3.extract_flowcell_id header parts = "".
Proof.
  intros Hidx Hshort. unfold V3.extract_flowcell_id. rewrite Hidx.
  by rewrite (lookup_ge_None_2 parts idx).
Qed.

Lemma flowcell_column_priority_witness :
  Py.index "filename" ["filename"; "sequence_length_template"; "filename_pod5"]
    = Some 0%nat ∧
  V3.extract_flowcell_id ["filename"; "sequence_length_template"; "filename_pod5"]
    ["FC1_a.fast5"; "1000"] = "".
Proof.
  split; [reflexivity|].
  apply (flowcell_column_priority _ _ 2); [reflexivity|simpl; lia].
Defined.

(** X3. Every identifier of an aggregate is a non-empty text without
    underscore, so the field [flowcell_id] of the row is a list of such
    names between commas, without empty entry. *)
Theorem aggregate_identifiers_wellformed fs files (id : string) :
  id ∈ V3.a_flowcell_ids (accumulate fs files) →
  id ≠ "" ∧ Py.contains "_" id = false.
Proof.
  intros (inFile & _ & Hid)%accumulate_identifiers.
  unfold file_identifiers in Hid.
  destruct (usable fs inFile) as [[[header length_index] lines]|];
    [|by apply elem_of_nil in Hid].
  apply list_elem_of_filter in Hid as [Hne Hid]. split; [done|].
  apply list_elem_of_omap in Hid as (line & _ & Hline).
  unfold line_identifier in Hline.
  destruct (V3.repeated_header line); [done|]. cbn zeta in Hline.
  destruct (length _ <=? length_index)%nat; [done|].
  injection Hline as <-. apply flowcell_id_parts.
Qed.

Lemma aggregate_identifiers_wellformed_witness :
  "FC2" ≠ "" ∧ Py.contains "_" "FC2" = false.
Proof.
  apply (aggregate_identifiers_wellformed two_runs
           ["runA/s1/summary.txt"; "runB/s2/summary.txt"]).
  vm_compute. set_solver.
Defined.

(** ** The row of an aggregate *)

(** X4. The numbers of the row of an aggregate do not depend on the order
    in which the files are given. *)
Theorem aggregate_order_independent `{PyFloat F} fs files files' (size : F) :
  files ≡ₚ files' →
  returned_numbers (V3.process_aggregated_files fs files size) =
    returned_numbers (V3.process_aggregated_files fs files' size).
Proof.
  intros Hp. destruct (accumulate_perm fs files files' Hp) as (Hl & Hb & Hi).
  rewrite !aggregated_numbers. cbn zeta.
  destruct (V3.a_read_lengths (accumulate fs files)) as [|x xs] eqn:Hx;
    destruct (V3.a_read_lengths (accumulate fs files')) as [|y ys] eqn:Hy.
  - done.
  - by apply Permutation_nil in Hl.
  - symmetry in Hl. by apply Permutation_nil in Hl.
  - f_equal. rewrite (sum_list_perm _ _ Hl). by apply summarise_numbers.
Qed.

Lemma aggregate_order_independent_witness :
  returned_numbers (V3.process_aggregated_files two_runs
                      ["runA/s1/summary.txt"; "runB/s2/summary.txt"] human) =
  returned_numbers (V3.process_aggregated_files two_runs
                      ["runB/s2/summary.txt"; "runA/s1/summary.txt"] human).
Proof.
  apply (aggregate_order_independent (F:=Q)). apply Permutation_swap.
Defined.

Lemma accumulate_names fs files :
  V3.a_file_names (accumulate fs files) = filter (λ f, is_Some (fs f)) files.
Proof.
  induction files as [|f files IH]; [done|].
  rewrite accumulate_cons, filter_cons. cbn [merge contribution V3.a_file_names].
  rewrite IH. destruct (fs f) eqn:Hf; case_decide as Hs; try done;
    destruct Hs; eauto.
Qed.

Lemma accumulate_messages fs files :
  V3.a_stderr (accumulate fs files) = omap (file_diagnostic fs) files.
Proof.
  induction files as [|f files IH]; [done|].
  rewrite accumulate_cons. cbn [merge contribution V3.a_stderr omap list_omap].
  rewrite IH. unfold file_diagnostic.
  destruct (fs f); [|done]. by destruct (usable fs f).
Qed.

(** X5. The label of the row of an aggregate names, in the order given,
    the files that could be opened, whether or not they have the length
    column or any valid row; the files that could not be opened are left
    out. One message is written for every file that cannot be opened or
    lacks the column, in the order of the files, and none for the others. *)
Theorem aggregate_label_and_messages `{PyFloat F} fs files (size : F) :
  fst (V3.process_aggregated_files fs files size) =
    omap (file_diagnostic fs) files ∧
  ∀ said r,
    V3.process_aggregated_files fs files size = (said, Returned (Some r)) →
    V3.File r = Py.join "," (filter (λ f, is_Some (fs f)) files).
Proof.
  rewrite process_aggregated_files_eq. cbn zeta.
  rewrite accumulate_messages, accumulate_names.
  destruct (V3.a_read_lengths _) as [|x xs]; [done|].
  split; [done|]. intros said r [= <- Hr].
  destruct (V3.summarise _ _ _ _ _ _) as [r'|] eqn:Hs; [|done].
  injection Hr as <-. by destruct (summarise_cell _ _ _ _ _ _ _ Hs).
Qed.

Lemma aggregate_label_and_messages_witness :
  V3.File
    {| V3.File := "bad.txt,good.txt"; V3.flowcell_id := "FC1"; V3.read_N50 := 1000;
       V3.Gb := exact_round2 (inject_Z 1000 / inject_Z 1000000000);
       V3.coverage := exact_round2 (inject_Z 1000 / human);
       V3.lt20 := exact_round2 (inject_Z 0 / human);
       V3.lt40 := exact_round2 (inject_Z 0 / human);
       V3.lt60 := exact_round2 (inject_Z 0 / human);
       V3.lt80 := exact_round2 (inject_Z 0 / human);
       V3.lt100 := exact_round2 (inject_Z 0 / human);
       V3.whales := 0 |} =
  Py.join "," (filter (λ f, is_Some (mixed_batch f)) ["missing.txt"; "bad.txt"; "good.txt"]).
Proof.
  apply (proj2 (aggregate_label_and_messages (F:=Q) mixed_batch
                  ["missing.txt"; "bad.txt"; "good.txt"] human)
           [OpenError "missing.txt"; MissingColumn "bad.txt"]).
  reflexivity.
Defined.

(** ** More on the label transform *)

Lemma contains_sep_app (sep : ascii) (a b : string) :
  Py.contains (String sep "") (a +:+ b) =
    Py.contains (String sep "") a || Py.contains (String sep "") b.
Proof.
  induction a as [|c a IH].
  { change ("" +:+ b) with b. by destruct b. }
  change (String c a +:+ b) with (String c (a +:+ b)).
  rewrite !contains_sep_cons, IH. by rewrite orb_assoc.
Qed.

Lemma contains_sep_join (sep c : ascii) (l : list string) :
  Ascii.eqb c sep = false →
  Forall (λ x, Py.contains (String c "") x = false) l →
  Py.contains (String c "") (Py.join (String sep "") l) = false.
Proof.
  intros Hc. induction 1 as [|x l Hx Hl IH]; [done|].
  destruct l as [|y l]; [done|].
  change (Py.join (String sep "") (x :: y :: l))
    with (x +:+ String sep "" +:+ Py.join (String sep "") (y :: l)).
  rewrite !contains_sep_app, Hx, IH. simpl. by rewrite Hc.
Qed.

(** A piece of a split holds no character that the text does not hold. *)
Lemma split_on_pieces_without (sep c : ascii) (s : string) :
  Py.contains (String c "") s = false →
  Forall (λ piece, Py.contains (String c "") piece = false) (Py.split_on sep s).
Proof.
  induction s as [|a s IH]; cbn [Py.split_on].
  { by repeat constructor. }
  rewrite contains_sep_cons. intros [Ha Hs]%orb_false_iff.
  specialize (IH Hs). destruct (Ascii.eqb a sep).
  { by constructor. }
  destruct (Py.split_on sep s) as [|piece pieces].
  { repeat constructor. by rewrite contains_sep_cons, Ha. }
  inv IH. constructor; [|done]. rewrite contains_sep_cons, Ha. done.
Qed.

Lemma split_on_cut (sep : ascii) (x t : string) :
  Py.contains (String sep "") x = false →
  Py.split_on sep (x +:+ String sep t) = x :: Py.split_on sep t.
Proof.
  induction x as [|c x IH].
  { intros _. change ("" +:+ String sep t) with (String sep t).
    cbn [Py.split_on]. by rewrite Ascii.eqb_refl. }
  rewrite contains_sep_cons. intros [Hc Hx]%orb_false_iff.
  change (String c x +:+ String sep t) with (String c (x +:+ String sep t)).
  cbn [Py.split_on]. rewrite Ascii.eqb_sym, Hc, (IH Hx). done.
Qed.

(** [sep.join(l).split(sep) == l] for pieces without separator. *)
Lemma split_on_join (sep : ascii) (l : list string) :
  l ≠ [] → Forall (λ x, Py.contains (String sep "") x = false) l →
  Py.split_on sep (Py.join (String sep "") l) = l.
Proof.
  intros Hne Hl. induction Hl as [|x l Hx Hl IH]; [done|].
  destruct l as [|y l].
  { simpl. by apply split_on_absent. }
  change (Py.join (String sep "") (x :: y :: l))
    with (x +:+ String sep (Py.join (String sep "") (y :: l))).
  rewrite (split_on_cut _ _ _ Hx), IH; done.
Qed.

Lemma spec_shorten_no_slash (component : string) :
  Py.contains "/" (spec_shorten component) = false.
Proof.
  unfold spec_shorten.
  pose proof (split_on_pieces "/" component) as Hp.
  pose proof (join_split_on "/" component) as Hj.
  destruct (Py.split_on "/" component) as [|a [|b l]].
  - simpl in Hj. by subst.
  - simpl in Hj. subst. by inv Hp.
  - inv Hp. by inv H2.
Qed.

Lemma spec_shorten_without (c : ascii) (component : string) :
  Py.contains (String c "") component = false →
  Py.contains (String c "") (spec_shorten component) = false.
Proof.
  intros Hc. unfold spec_shorten.
  pose proof (split_on_pieces_without "/" c component Hc) as Hp.
  destruct (Py.split_on "/" component) as [|a [|b l]]; [done..|].
  inv Hp. by inv H2.
Qed.

Lemma spec_shorten_fixed (component : string) :
  Py.contains "/" component = false → spec_shorten component = component.
Proof.
  intros Hc. unfold spec_shorten. by rewrite (split_on_absent _ _ Hc).
Qed.

(** X6. With shortening, the label holds no path separator: every
    component between commas is a single segment of a path. *)
Theorem shortened_label_has_no_slash (file_field : string) :
  Py.contains "/" (V3.transform_file_field file_field "yes") = false.
Proof.
  rewrite transform_shortened. apply contains_sep_join; [done|].
  apply Forall_forall. intros x Hx.
  apply list_elem_of_In, in_map_iff in Hx as (y & <- & _).
  apply spec_shorten_no_slash.
Qed.

(** X7. Shortening a label that has been shortened changes nothing. *)
Theorem transform_idempotent (file_field : string) :
  V3.transform_file_field (V3.transform_file_field file_field "yes") "yes" =
    V3.transform_file_field file_field "yes".
Proof.
  rewrite !transform_shortened.
  set (components := map spec_shorten (Py.split_on "," file_field)).
  assert (components ≠ []) as Hne.
  { unfold components. destruct (split_on_first "," file_field) as (a & l & -> & _).
    done. }
  assert (Forall (λ x, Py.contains "," x = false) components) as Hcomma.
  { apply Forall_forall. intros x Hx.
    apply list_elem_of_In, in_map_iff in Hx as (y & <- & Hy).
    apply spec_shorten_without.
    pose proof (split_on_pieces "," file_field) as Hp.
    rewrite Forall_forall in Hp. by apply Hp, list_elem_of_In. }
  rewrite (split_on_join "," components Hne Hcomma). f_equal.
  rewrite <- (map_id components) at 2. apply map_ext_in.
  intros x (y & <- & _)%in_map_iff.
  apply spec_shorten_fixed, spec_shorten_no_slash.
Qed.

(** ** More on the buckets and on N50 *)

Lemma sum_ge_app (t : Z) (l1 l2 : list Z) :
  sum_ge t (l1 ++ l2) = sum_ge t l1 + sum_ge t l2.
Proof. unfold sum_ge. by rewrite filter_app, sum_list_app. Qed.

Lemma sum_ge_perm (t : Z) (l l' : list Z) : l ≡ₚ l' → sum_ge t l = sum_ge t l'.
Proof. induction 1; rewrite ?sum_ge_cons; try done; lia. Qed.

Lemma sum_ge_all (t : Z) (l : list Z) :
  Forall (λ x, t ≤ x) l → sum_ge t l = sum_list l.
Proof.
  induction 1 as [|x l Hx _ IH]; [done|].
  rewrite sum_ge_cons, sum_list_cons, IH. by case_decide.
Qed.

Lemma sum_ge_none (t : Z) (l : list Z) :
  Forall (λ x, x < t) l → sum_ge t l = 0.
Proof.
  induction 1 as [|x l Hx _ IH]; [done|].
  rewrite sum_ge_cons, IH. case_decide; lia.
Qed.

Lemma sum_ge_bounds (t : Z) (l : list Z) :
  Forall (λ x, 0 ≤ x) l → 0 ≤ sum_ge t l ≤ sum_list l.
Proof.
  induction 1 as [|x l Hx _ IH]; [done|].
  rewrite sum_ge_cons, sum_list_cons. case_decide; lia.
Qed.

Lemma count_ge_bounds (t : Z) (l : list Z) :
  0 ≤ count_ge t l ≤ Z.of_nat (length l).
Proof.
  induction l as [|x l IH]; [done|].
  rewrite count_ge_cons. cbn [length]. case_decide; lia.
Qed.

Lemma sum_ge_count (t : Z) (l : list Z) : t * count_ge t l ≤ sum_ge t l.
Proof.
  induction l as [|x l IH]; [unfold count_ge, sum_ge; simpl; lia|].
  rewrite count_ge_cons, sum_ge_cons. case_decide; lia.
Qed.

(** X8. For lengths that are not negative, every bucket sum lies between
    0 and the total number of bases, and the count of the reads at or
    above a bound between 0 and the number of reads; for any lengths, the
    reads at or above a bound sum to at least the bound times their
    number. *)
Theorem bucket_bounds (lengths : list Z) (t : Z) :
  (Forall (λ x, 0 ≤ x) lengths → 0 ≤ sum_ge t lengths ≤ sum_list lengths) ∧
  0 ≤ count_ge t lengths ≤ Z.of_nat (length lengths) ∧
  t * count_ge t lengths ≤ sum_ge t lengths.
Proof.
  split_and!; [apply sum_ge_bounds|apply count_ge_bounds..|apply sum_ge_count].
Qed.

Lemma bucket_bounds_witness :
  0 ≤ sum_ge 20000 [25000; 500; 70000] ≤ sum_list [25000; 500; 70000].
Proof.
  apply (proj1 (bucket_bounds [25000; 500; 70000] 20000)).
  repeat constructor; lia.
Defined.

(** In a list sorted in descending order, what stands before a position
    is at least the value there, and what stands after is at most it. *)
Lemma sorted_around (l : list Z) (i : nat) (v : Z) :
  Sorted desc l → l !! i = Some v →
  Forall (λ x, v ≤ x) (take i l) ∧ Forall (λ x, x ≤ v) (drop (S i) l).
Proof.
  intros Hs%(Sorted_StronglySorted desc) Hi.
  rewrite <- (take_drop_middle l i v Hi) in Hs.
  apply StronglySorted_app in Hs as (Hbefore & _ & Hafter).
  apply StronglySorted_cons in Hafter as [Hafter _]. split.
  - apply Forall_forall. intros x Hx. apply (Hbefore x v Hx). left.
  - exact Hafter.
Qed.



(** ** Runs of the length variant *)

Section WithFloat.
Context `{PyFloat F}.

Lemma single_file_outcome fs inFile (size : F) :
  ∃ cell,
    V3.process_single_file fs inFile size =
      (option_list (file_diagnostic fs inFile),
       if has_data fs inFile then
         Some <$> V3.summarise 1000000 inFile cell (file_lengths fs inFile)
                    (sum_list (file_lengths fs inFile)) size
       else Returned None).
Proof.
  rewrite process_single_file_eq. unfold has_data, file_diagnostic, file_lengths.
  destruct (fs inFile) as [f|] eqn:Hf.
  2: { exists "". unfold usable. by rewrite Hf. }
  destruct (usable fs inFile) as [[[header length_index] lines]|]; [|by exists ""].
  destruct (omap _ lines) as [|x xs]; [by exists ""|]. by eexists.
Qed.

Lemma summarise_zero_size whale_bound file cell l bases (size : F) :
  is_zero size = true →
  V3.summarise whale_bound file cell l bases size = Raised ZeroDivisionError.
Proof. unfold V3.summarise, py_truediv. by intros ->. Qed.

Lemma summarise_returns whale_bound file cell l bases (size : F) :
  is_zero size = false →
  ∃ r, V3.summarise whale_bound file cell l bases size = Returned r ∧
       V3.File r = file.
Proof. unfold V3.summarise, py_truediv. intros ->. by eexists. Qed.

Lemma has_data_exists fs files :
  existsb (has_data fs) files =
    bool_decide (V3.a_read_lengths (accumulate fs files) ≠ []).
Proof.
  rewrite accumulate_lengths. induction files as [|f files IH]; [done|].
  cbn [existsb fmap list_fmap concat]. rewrite IH. unfold has_data.
  destruct (file_lengths fs f) as [|x xs]; [done|].
  rewrite (bool_decide_eq_true_2 (x :: xs ≠ [])) by done.
  symmetry. by apply bool_decide_eq_true_2.
Qed.
End WithFloat.



Lemma directory_mode_labels `{PyFloat F} fs files (size : F) shortname suffix :
  is_zero size = false →
  V3.ending (V3.directory_mode fs files size shortname suffix) = Returned () ∧
  V3.File <$> V3.rows (V3.directory_mode fs files size shortname suffix) =
    (λ f, V3.output_label f shortname suffix) <$> filter (λ f, has_data fs f = true) files ∧
  V3.messages (V3.directory_mode fs files size shortname suffix) =
    omap (file_diagnostic fs) files.
Proof.
  intros Hsize. induction files as [|f files (IHe & IHr & IHm)]; [done|].
  cbn [V3.directory_mode omap list_omap]. rewrite filter_cons.
  destruct (single_file_outcome fs f size) as [cell ->].
  destruct (has_data fs f) eqn:Hdata.
  - destruct (summarise_returns 1000000 f cell (file_lengths fs f)
                (sum_list (file_lengths fs f)) size Hsize) as (r & -> & Hfile).
    rewrite decide_True by done. simpl. rewrite IHm, Hfile.
    split_and!; [done|f_equal; exact IHr|]. by destruct (file_diagnostic fs f).
  - rewrite decide_False by done. simpl. rewrite IHm.
    split_and!; [done|done|]. by destruct (file_diagnostic fs f).
Qed.



(** ** The quality variant *)

Lemma kept_columns (df : Rna.DataFrame) :
  Rna.has_column "mean_qscore_template" (Rna.drop df)
    = Rna.has_column "mean_qscore_template" df ∧
  Rna.has_column "sequence_length_template" (Rna.drop df)
    = Rna.has_column "sequence_length_template" df.
Proof.
  unfold Rna.has_column, Rna.drop. simpl.
  split; apply bool_decide_ext; rewrite list_elem_of_filter;
    (split; [tauto|]); (split; [|done]);
    apply (bool_decide_unpack _); by vm_compute.
Qed.

(** One turn of the loop over the files, in terms of what the file adds. *)
Lemma rna_file_adds fs t inFile :
  Rna.aggregated_file fs t inFile =
    match fs inFile with
    | None => Returned (Rna.report (OpenError inFile) t)
    | Some Rna.Unreadable => Returned (Rna.report (ReadError inFile) t)
    | Some (Rna.Parsed df) =>
        if Rna.has_column "mean_qscore_template" df then
          if Rna.has_column "sequence_length_template" df then
            Returned (rna_merge t (frame_totals df))
          else Raised (KeyError "sequence_length_template")
        else Raised (KeyError "mean_qscore_template")
    end.
Proof.
  unfold Rna.aggregated_file. destruct (fs inFile) as [[|df]|]; try done.
  unfold Rna.count_quality, Rna.lengths_column.
  destruct (kept_columns df) as [-> ->].
  destruct (Rna.has_column "mean_qscore_template" df); [|done].
  destruct (Rna.has_column "sequence_length_template" df); [|done].
  cbn. unfold rna_merge, frame_totals, quality_count. cbn.
  by rewrite app_nil_r.
Qed.

Lemma rna_merge_assoc (a b c : Rna.totals) :
  rna_merge a (rna_merge b c) = rna_merge (rna_merge a b) c.
Proof.
  unfold rna_merge. cbn. rewrite !(assoc_L (++)). f_equal; lia.
Qed.

Lemma rna_merge_init_l (a : Rna.totals) : rna_merge Rna.totals_init a = a.
Proof. by destruct a. Qed.

Lemma rna_merge_init_r (a : Rna.totals) : rna_merge a Rna.totals_init = a.
Proof.
  destruct a. unfold rna_merge. cbn. rewrite !app_nil_r, !Z.add_0_r. done.
Qed.

Lemma rna_file_shift fs t inFile :
  Rna.aggregated_file fs t inFile =
    rna_merge t <$> Rna.aggregated_file fs Rna.totals_init inFile.
Proof.
  rewrite !rna_file_adds. destruct (fs inFile) as [[|df]|].
  - cbn. f_equal. unfold Rna.report, rna_merge. cbn.
    rewrite !Z.add_0_r, app_nil_r. done.
  - destruct (Rna.has_column "mean_qscore_template" df); [|done].
    destruct (Rna.has_column "sequence_length_template" df); [|done].
    cbn. by rewrite rna_merge_init_l.
  - cbn. f_equal. unfold Rna.report, rna_merge. cbn.
    rewrite !Z.add_0_r, app_nil_r. done.
Qed.

Lemma rna_loop_shift fs t files :
  Rna.aggregated_loop fs t files =
    rna_merge t <$> Rna.aggregated_loop fs Rna.totals_init files.
Proof.
  revert t. induction files as [|f files IH]; intros t.
  { cbn. by rewrite rna_merge_init_r. }
  cbn [Rna.aggregated_loop]. rewrite (rna_file_shift fs t f).
  destruct (Rna.aggregated_file fs Rna.totals_init f) as [t1|e]; [|done].
  cbn. rewrite (IH (rna_merge t t1)), (IH t1).
  destruct (Rna.aggregated_loop fs Rna.totals_init files) as [t2|e]; [|done].
  cbn. by rewrite rna_merge_assoc.
Qed.

Lemma rna_loop_cons fs inFile files t :
  Rna.aggregated_loop fs Rna.totals_init (inFile :: files) = Returned t ↔
  ∃ t1 t2,
    Rna.aggregated_file fs Rna.totals_init inFile = Returned t1 ∧
    Rna.aggregated_loop fs Rna.totals_init files = Returned t2 ∧
    t = rna_merge t1 t2.
Proof.
  cbn [Rna.aggregated_loop].
  destruct (Rna.aggregated_file fs Rna.totals_init inFile) as [t1|e]; cbn.
  2: { split; [done|]. by intros (? & ? & ? & _). }
  rewrite rna_loop_shift.
  destruct (Rna.aggregated_loop fs Rna.totals_init files) as [t2|e]; cbn.
  2: { split; [done|]. by intros (? & ? & _ & ? & _). }
  split.
  - intros [= <-]. by exists t1, t2.
  - by intros (? & ? & [= <-] & [= <-] & ->).
Qed.

Global Instance same_counts_equiv : Equivalence same_counts.
Proof.
  unfold same_counts. split.
  - intros a. by split_and!.
  - intros a b (-> & -> & -> & -> & -> & -> & -> & ->). by split_and!.
  - intros a b c (-> & -> & -> & -> & -> & -> & -> & ->). done.
Qed.

Lemma same_counts_merge (a a' b b' : Rna.totals) :
  same_counts a a' → same_counts b b' →
  same_counts (rna_merge a b) (rna_merge a' b').
Proof.
  unfold same_counts. cbn.
  intros (-> & -> & -> & -> & -> & -> & -> & Ha)
         (-> & -> & -> & -> & -> & -> & -> & Hb).
  split_and!; try done. by rewrite Ha, Hb.
Qed.

Lemma same_counts_swap (a b c : Rna.totals) :
  same_counts (rna_merge a (rna_merge b c)) (rna_merge b (rna_merge a c)).
Proof.
  unfold same_counts. cbn. split_and!; try lia.
  rewrite !(assoc_L (++)). f_equiv. apply Permutation_app_comm.
Qed.

Lemma rna_loop_perm fs files files' t :
  files ≡ₚ files' →
  Rna.aggregated_loop fs Rna.totals_init files = Returned t →
  ∃ t', Rna.aggregated_loop fs Rna.totals_init files' = Returned t' ∧
        same_counts t t'.
Proof.
  intros Hp. revert t.
  induction Hp as [|x l l' _ IH|x y l|l1 l2 l3 _ IH1 _ IH2]; intros t.
  - intros [= <-]. by exists Rna.totals_init.
  - intros (t1 & t2 & Hx & Hl & ->)%rna_loop_cons.
    destruct (IH t2 Hl) as (t2' & Hl' & Hs).
    exists (rna_merge t1 t2'). split.
    + apply rna_loop_cons. by exists t1, t2'.
    + by apply same_counts_merge.
  - intros (t1 & t23 & Hy & (t2 & t3 & Hx & Hl & ->)%rna_loop_cons & ->)%rna_loop_cons.
    exists (rna_merge t2 (rna_merge t1 t3)). split.
    + apply rna_loop_cons. exists t2, (rna_merge t1 t3). split_and!; [done| |done].
      apply rna_loop_cons. by exists t1, t3.
    + apply same_counts_swap.
  - intros Ht. destruct (IH1 t Ht) as (t2 & Ht2 & Hs12).
    destruct (IH2 t2 Ht2) as (t3 & Ht3 & Hs23).
    exists t3. split; [done|]. by etrans.
Qed.

Lemma rna_file_consistent fs t inFile t' :
  consistent t → Rna.aggregated_file fs t inFile = Returned t' → consistent t'.
Proof.
  rewrite rna_file_adds. unfold consistent.
  intros (Hr & Hb & H25 & H5).
  destruct (fs inFile) as [[|df]|]; try by intros [= <-].
  destruct (Rna.has_column "mean_qscore_template" df); [|done].
  destruct (Rna.has_column "sequence_length_template" df); [|done].
  intros [= <-]. cbn. rewrite length_app, length_map, sum_list_app.
  pose proof (quality_rows_bound (Rna.records df) 5).
  unfold quality_count. split_and!; lia.
Qed.



Section WithFloat.
Context `{PyFloat F}.

Lemma rna_summarise_same sample sample' t t' :
  same_counts t t' →
  rna_numbers (Rna.summarise (F:=F) sample t) =
    rna_numbers (Rna.summarise (F:=F) sample' t').
Proof.
  intros (Hr & Hb & H5 & H10 & H15 & H20 & H25 & Hl).
  unfold rna_numbers, Rna.summarise. cbn.
  by rewrite Hr, Hb, H5, H10, H15, H20, H25, (sort_reverse_order _ _ Hl).
Qed.
End WithFloat.

(** X13. When the aggregated function of the quality variant returns for
    a list of files, it returns for every reordering of the list, and the
    numeric fields of the row, or the absence of a row, are the same. *)
Theorem rna_aggregate_order_independent `{PyFloat F} fs file_list file_list'
    told (result : option (Rna.stats F)) :
  file_list ≡ₚ file_list' →
  Rna.process_aggregated_rna_files fs file_list = Returned (told, result) →
  ∃ told' result',
    Rna.process_aggregated_rna_files fs file_list' = Returned (told', result') ∧
    rna_numbers <$> result' = rna_numbers <$> result.
Proof.
  intros Hp. unfold Rna.process_aggregated_rna_files.
  destruct (Rna.aggregated_loop fs Rna.totals_init file_list) as [t|] eqn:Ht; [|done].
  destruct (rna_loop_perm fs file_list file_list' t Hp Ht) as (t' & -> & Hs).
  cbn. destruct Hs as (Hr & Hrest). rewrite <- Hr.
  destruct (Rna.total_reads t =? 0); intros [= <- <-]; eexists _, _; (split; [done|]).
  - done.
  - cbn. f_equal. apply rna_summarise_same. symmetry. by split.
Qed.

Lemma rna_aggregate_order_independent_witness :
  ∃ told' result',
    Rna.process_aggregated_rna_files (F:=Q) rna_runs
      ["b/s2/sequencing_summary.txt"; "a/s1/sequencing_summary.txt"]
      = Returned (told', result') ∧
    rna_numbers <$> result' =
      rna_numbers <$>
        Some (Rna.summarise
                "a/s1/sequencing_summary.txt,b/s2/sequencing_summary.txt"
                (rna_merge (frame_totals three_reads) (frame_totals one_read))).
Proof.
  apply (rna_aggregate_order_independent (F:=Q) rna_runs
           ["a/s1/sequencing_summary.txt"; "b/s2/sequencing_summary.txt"]
           ["b/s2/sequencing_summary.txt"; "a/s1/sequencing_summary.txt"] []).
  - apply Permutation_swap.
  - reflexivity.
Defined.

(** ** Runs of the quality variant *)

(** X14. For an input whose frame has at least one row, the per-file
    function of the quality variant and the aggregated function on that
    input alone end in the same way: the same row, or the same exception. *)
Theorem rna_single_matches_aggregate `{PyFloat F} fs inFile df :
  fs inFile = Some (Rna.Parsed df) → Rna.records df ≠ [] →
  snd (Rna.process_rna_file (F:=F) fs inFile) =
    snd <$> Rna.process_aggregated_rna_files (F:=F) fs [inFile].
Proof.
  intros Hfs Hrows.
  unfold Rna.process_rna_file, Rna.process_aggregated_rna_files.
  cbn [Rna.aggregated_loop]. unfold Rna.aggregated_file. rewrite Hfs.
  unfold Rna.count_quality, Rna.lengths_column.
  destruct (Rna.has_column "mean_qscore_template" _); [|done].
  destruct (Rna.has_column "sequence_length_template" _); [|done].
  cbn. destruct (Rna.records df) as [|r rows]; [done|]. reflexivity.
Qed.

Lemma rna_single_matches_aggregate_witness :
  snd (Rna.process_rna_file (F:=Q) rna_runs "a/s1/sequencing_summary.txt") =
    snd <$> Rna.process_aggregated_rna_files (F:=Q) rna_runs
              ["a/s1/sequencing_summary.txt"].
Proof.
  apply (rna_single_matches_aggregate (F:=Q) rna_runs
           "a/s1/sequencing_summary.txt" three_reads); [reflexivity|done].
Defined.

Section WithFloat.
Context `{PyFloat F}.

Lemma rna_file_outcome fs inFile :
  snd (Rna.process_rna_file (F:=F) fs inFile) =
    match fs inFile with
    | Some (Rna.Parsed df) =>
        if Rna.has_column "mean_qscore_template" df then
          if Rna.has_column "sequence_length_template" df then
            Returned (Some (Rna.summarise inFile (frame_totals df)))
          else Raised (KeyError "sequence_length_template")
        else Raised (KeyError "mean_qscore_template")
    | _ => Returned None
    end.
Proof.
  unfold Rna.process_rna_file. destruct (fs inFile) as [[|df]|]; try done.
  unfold Rna.count_quality, Rna.lengths_column.
  destruct (kept_columns df) as [-> ->].
  destruct (Rna.has_column "mean_qscore_template" df); [|done].
  by destruct (Rna.has_column "sequence_length_template" df).
Qed.

Lemma rna_incomplete_raises fs inFile df :
  fs inFile = Some (Rna.Parsed df) → ¬ complete df →
  ∃ column, snd (Rna.process_rna_file (F:=F) fs inFile) = Raised (KeyError column).
Proof.
  intros Hfs Hinc. rewrite rna_file_outcome, Hfs. unfold Rna.has_column.
  destruct (bool_decide _) eqn:Hq; [|by eexists].
  destruct (bool_decide ("sequence_length_template" ∈ _)) eqn:Hl; [|by eexists].
  destruct Hinc. apply bool_decide_eq_true_1 in Hq, Hl. by split.
Qed.

Lemma rna_only_key_errors fs inFile e :
  snd (Rna.process_rna_file (F:=F) fs inFile) = Raised e →
  ∃ column, e = KeyError column.
Proof.
  rewrite rna_file_outcome. destruct (fs inFile) as [[|df]|]; try done.
  destruct (Rna.has_column "mean_qscore_template" df).
  - destruct (Rna.has_column "sequence_length_template" df); [done|].
    intros [= <-]. by eexists.
  - intros [= <-]. by eexists.
Qed.

Lemma rna_collect_raises fs files inFile column :
  inFile ∈ files →
  snd (Rna.process_rna_file (F:=F) fs inFile) = Raised (KeyError column) →
  ∃ column', snd (Rna.collect (F:=F) fs files) = Raised (KeyError column').
Proof.
  intros Hin Hraise. induction files as [|f files IH]; [by apply elem_of_nil in Hin|].
  cbn [Rna.collect].
  destruct (Rna.process_rna_file fs f) as [told result] eqn:Hf.
  destruct result as [res|e].
  - apply elem_of_cons in Hin as [->|Hin].
    { rewrite Hf in Hraise. done. }
    destruct (IH Hin) as [column' Hc].
    destruct (Rna.collect fs files) as [told' later]. simpl in Hc. subst later.
    by exists column'.
  - destruct (rna_only_key_errors fs f e) as [column' ->].
    { by rewrite Hf. }
    by exists column'.
Qed.
End WithFloat.

(** X15. Directory mode of the quality variant writes its rows after all
    files have been processed: when the frame of any one of the files
    lacks one of the two columns that are read, the run ends with
    [KeyError] and no row at all is written, whatever the other files
    hold. *)
Theorem rna_directory_all_or_nothing `{PyFloat F} fs files inFile df
    shortname suffix :
  inFile ∈ files → fs inFile = Some (Rna.Parsed df) → ¬ complete df →
  ∃ column,
    Rna.rows (Rna.directory_mode (F:=F) fs files shortname suffix) = [] ∧
    Rna.ending (Rna.directory_mode (F:=F) fs files shortname suffix)
      = Raised (KeyError column).
Proof.
  intros Hin Hfs Hinc.
  destruct (rna_incomplete_raises fs inFile df Hfs Hinc) as [column Hraise].
  destruct (rna_collect_raises fs files inFile column Hin Hraise) as [column' Hc].
  exists column'. unfold Rna.directory_mode.
  destruct (Rna.collect fs files) as [told results]. simpl in Hc. by subst results.
Qed.

Lemma rna_directory_all_or_nothing_witness :
  ∃ column,
    Rna.rows (Rna.directory_mode (F:=Q) rna_runs
                ["a/s1/sequencing_summary.txt"; "c/s3/sequencing_summary.txt";
                 "b/s2/sequencing_summary.txt"] "yes" "fast") = [] ∧
    Rna.ending (Rna.directory_mode (F:=Q) rna_runs
                  ["a/s1/sequencing_summary.txt"; "c/s3/sequencing_summary.txt";
                   "b/s2/sequencing_summary.txt"] "yes" "fast")
      = Raised (KeyError column).
Proof.
  apply (rna_directory_all_or_nothing (F:=Q) rna_runs _
           "c/s3/sequencing_summary.txt" no_quality).
  - vm_compute. set_solver.
  - reflexivity.
  - intros [Hq _]. vm_compute in Hq. set_solver.
Defined.

Lemma rna_loop_no_read fs files t :
  (∀ f, f ∈ files → adds_no_read fs f) →
  ∃ t', Rna.aggregated_loop fs t files = Returned t' ∧
        Rna.total_reads t' = Rna.total_reads t.
Proof.
  revert t. induction files as [|f files IH]; intros t Hall.
  { by exists t. }
  cbn [Rna.aggregated_loop]. rewrite rna_file_adds.
  pose proof (Hall f ltac:(left)) as Hf. unfold adds_no_read in Hf.
  assert (∀ g, g ∈ files → adds_no_read fs g) as Hrest.
  { intros g Hg. apply Hall. by right. }
  destruct (fs f) as [[|df]|]; cbn.
  - destruct (IH (Rna.report (ReadError f) t) Hrest) as (t' & -> & Hr). by exists t'.
  - destruct Hf as [[Hq Hl] Hrows].
    unfold Rna.has_column. rewrite !bool_decide_eq_true_2 by done. cbn.
    destruct (IH (rna_merge t (frame_totals df)) Hrest) as (t' & -> & Hr).
    exists t'. split; [done|]. rewrite Hr. cbn. rewrite Hrows. cbn. lia.
  - destruct (IH (Rna.report (OpenError f) t) Hrest) as (t' & -> & Hr). by exists t'.
Qed.



(** ** [main] of the length variant *)

Lemma filter_sublist {A} (P : A → Prop) `{∀ x, Decision (P x)} (l1 l2 : list A) :
  l1 `sublist_of` l2 → filter P l1 `sublist_of` filter P l2.
Proof.
  induction 1 as [|x l1 l2 _ IH|x l1 l2 _ IH]; [done| |];
    rewrite ?filter_cons; case_decide; auto using sublist_skip, sublist_cons.
Qed.

Lemma sequencing_summary_visible (name : string) :
  Py.startswith "sequencing_summary" name = true → Py.startswith "." name = false.
Proof.
  destruct name as [|a name]; [done|].
  change (Py.startswith "sequencing_summary" (String a name))
    with (Ascii.eqb "s" a && Py.startswith "equencing_summary" name).
  intros [Ha _]%andb_true_iff. by apply Ascii.eqb_eq in Ha as <-.
Qed.

Section WithFloat.
Context `{PyFloat F}.

(** The rows of the directories, for a genome size that is not zero. *)
Lemma main_directories_labels tree fs dirs (size : F) shortname suffix :
  is_zero size = false →
  exit (main_directories tree fs dirs size shortname suffix) = Returned () ∧
  V3.File <$> written (main_directories tree fs dirs size shortname suffix) =
    (λ f, V3.output_label f shortname suffix) <$>
      filter (λ f, has_data fs f = true)
        (concat (summary_files_of tree <$> filter (λ d, isdir tree d = true) dirs)).
Proof.
  intros Hsize. induction dirs as [|d dirs [IHe IHl]]; [done|].
  cbn [main_directories]. rewrite filter_cons.
  destruct (isdir tree d) eqn:Hd; cbn [negb].
  2: { by rewrite decide_False. }
  rewrite decide_True by done. cbn [fmap list_fmap concat].
  destruct (summary_files_of tree d) as [|f files] eqn:Hfiles.
  { cbn. by split. }
  destruct (directory_mode_labels fs (f :: files) size
              shortname suffix Hsize) as (-> & Hrows & _).
  cbn [written exit]. split; [done|].
  rewrite fmap_app, Hrows, IHl, filter_app, fmap_app. done.
Qed.
End WithFloat.





(** ** One file and the aggregate that holds it *)

(** X19. The identifier that the per-file function reports for a file,
    when it is not empty, is one of the identifiers of every aggregate
    that holds the file. *)
Theorem per_file_identifier_in_aggregate `{PyFloat F} fs inFile files (size : F)
    said r :
  V3.process_single_file fs inFile size = (said, Returned (Some r)) →
  inFile ∈ files → V3.flowcell_id r ≠ "" →
  V3.flowcell_id r ∈ V3.a_flowcell_ids (accumulate fs files).
Proof.
  rewrite process_single_file_eq. unfold file_lengths.
  destruct (fs inFile) eqn:Hfs; [|done].
  destruct (usable fs inFile) as [[[header length_index] lines]|] eqn:Hu; [|done].
  destruct (omap (accepted_length length_index) lines) as [|x xs] eqn:Hl; [done|].
  destruct (first_identifier_exists header length_index lines) as [id Hid].
  { by rewrite Hl. }
  rewrite Hid. intros [= <- Hr] Hin Hne.
  destruct (V3.summarise _ _ _ _ _ _) as [r'|] eqn:Hs; [|done].
  injection Hr as <-. destruct (summarise_cell _ _ _ _ _ _ _ Hs) as [_ Hcell].
  rewrite Hcell in Hne |- *. simpl in Hne |- *.
  destruct (head_omap_first _ _ _ Hid) as (before & line & after & -> & _ & Hline).
  apply accumulate_identifiers. exists inFile. split; [done|].
  eapply file_identifiers_line; [exact Hu| |exact Hline|done].
  apply elem_of_app. right. left.
Qed.

Lemma per_file_identifier_in_aggregate_witness :
  "FC2" ∈ V3.a_flowcell_ids
            (accumulate two_runs ["runB/s2/summary.txt"; "runA/s1/summary.txt"]).
Proof.
  apply (per_file_identifier_in_aggregate (F:=Q) two_runs "runA/s1/summary.txt"
           ["runB/s2/summary.txt"; "runA/s1/summary.txt"] human []
           {| V3.File := "runA/s1/summary.txt"; V3.flowcell_id := "FC2";
              V3.read_N50 := 1000;
              V3.Gb := exact_round2 (inject_Z 1500 / inject_Z 1000000000);
              V3.coverage := exact_round2 (inject_Z 1500 / human);
              V3.lt20 := exact_round2 (inject_Z 0 / human);
              V3.lt40 := exact_round2 (inject_Z 0 / human);
              V3.lt60 := exact_round2 (inject_Z 0 / human);
              V3.lt80 := exact_round2 (inject_Z 0 / human);
              V3.lt100 := exact_round2 (inject_Z 0 / human);
              V3.whales := 0 |}).
  - reflexivity.
  - set_solver.
  - discriminate.
Defined.
